(** * Letter value sum (dailyprogrammer challenge 399): a shallow embedding

    The Python module [challenge_number_399_easy_letter_value_sum.py] is
    embedded function by function.

    - A Python [str] is a sequence of code points.  The embedding covers the
      strings over U+0000..U+00FF (Basic Latin and Latin-1 Supplement): a
      code point is an [ascii] (eight bits), a string is a [string].  On that
      range [str.isalpha] and [str.lower] are tabulated from the Unicode
      character database, and the range is closed under [str.lower].
      Beyond that range [str.lower] is no character map (final sigma,
      U+0130): [Unicode.calculate] embeds the letter sum over all code
      points, with the character database as a parameter, and the 8-bit
      model is its restriction ([calculate_to_string]).
    - Python integers are unbounded: [Z].
    - [most_common_words] and [length_dict] are dicts whose [items()] are
      iterated, so insertion order is observable: an insertion-ordered
      association list ([odict]).  [words_length_and_sum] is only read by
      key and written by key: a [gmap].
    - An uncaught Python exception is the [Raise] branch of [result]. *)

From Stdlib Require Import ZArith String Ascii List Lia Bool Sorted.
From Stdlib Require Import DecimalString.
From stdpp Require Import gmap strings list sorting.

Import ListNotations.
Local Open Scope string_scope.
Local Open Scope list_scope.
Local Open Scope Z_scope.

(** ** Python built-ins used by the module *)

Module Py.

(** [ord(c)] *)
Definition ord (c : ascii) : Z := Z.of_N (N_of_ascii c).

(** [chr(n)], for [0 <= n < 256]. *)
Definition chr (n : Z) : ascii := ascii_of_N (Z.to_N n).

Definition between (lo hi n : Z) : bool := (lo <=? n) && (n <=? hi).

(** General category Lu on U+0000..U+00FF: A-Z, U+00C0..U+00DE except the
    multiplication sign U+00D7. *)
Definition is_Lu (n : Z) : bool :=
  between 65 90 n || (between 192 222 n && negb (n =? 215)).

(** General category Ll on U+0000..U+00FF: a-z, the micro sign U+00B5,
    U+00DF..U+00FF except the division sign U+00F7. *)
Definition is_Ll (n : Z) : bool :=
  between 97 122 n || (n =? 181) || (between 223 255 n && negb (n =? 247)).

(** General category Lo on U+0000..U+00FF: the ordinal indicators
    U+00AA and U+00BA. *)
Definition is_Lo (n : Z) : bool := (n =? 170) || (n =? 186).

(** [c.isalpha()]: the category of [c] is a letter category. *)
Definition isalpha (c : ascii) : bool :=
  let n := ord c in is_Lu n || is_Ll n || is_Lo n.

(** [c.lower()] for one code point: every Lu code point of the range has
    its lowercase 32 places further. *)
Definition lower_char (c : ascii) : ascii :=
  if is_Lu (ord c) then chr (ord c + 32) else c.

(** The ASCII letters. *)
Definition is_ascii_letter (c : ascii) : bool :=
  between 65 90 (ord c) || between 97 122 (ord c).

(** The characters of a string, in order (iterating over a [str]). *)
Definition chars (s : string) : list ascii := list_ascii_of_string s.

(** [s.lower()] of a string within U+0000..U+00FF, where it is a
    character map (the algorithm over all code points is
    [Unicode.lower]). *)
Definition lower (s : string) : string :=
  string_of_list_ascii (List.map lower_char (chars s)).

(** [len(s)] *)
Definition len (s : string) : Z := Z.of_nat (String.length s).

(** [sum(xs)]: starts from 0 and adds from the left. *)
Definition sum (xs : list Z) : Z := fold_left Z.add xs 0.

(** [range(a, b)] *)
Definition range (a b : Z) : list Z :=
  List.map (fun i => a + Z.of_nat i) (seq 0 (Z.to_nat (b - a))).

(** [range(n, 0, -1)] for a natural [n]: n, n-1, ..., 1. *)
Fixpoint countdown (n : nat) : list Z :=
  match n with
  | O => []
  | S k => Z.of_nat (S k) :: countdown k
  end.

Definition range_down (n : Z) : list Z := countdown (Z.to_nat n).

(** [set(a).isdisjoint(set(b))] *)
Definition isdisjoint (a b : string) : bool :=
  forallb (fun c => negb (existsb (Ascii.eqb c) (chars b))) (chars a).

(** [s.strip("\n")]: line feeds removed at both ends. *)
Definition LF : ascii := chr 10.

Fixpoint lstrip_lf (l : list ascii) : list ascii :=
  match l with
  | c :: l' => if Ascii.eqb c LF then lstrip_lf l' else l
  | [] => []
  end.

Definition strip_lf (s : string) : string :=
  string_of_list_ascii
    (rev (lstrip_lf (rev (lstrip_lf (chars s))))).

(** Truthiness of a string: the empty string is false. *)
Definition truthy (s : string) : bool :=
  match s with EmptyString => false | _ => true end.

(** Exceptions the module can raise. *)
Inductive exn : Type := IndexError | ValueError.

Inductive result (A : Type) : Type :=
| Ok (a : A)
| Raise (e : exn).
Arguments Ok {A} a.
Arguments Raise {A} e.

Definition bind {A B} (r : result A) (k : A -> result B) : result B :=
  match r with
  | Ok a => k a
  | Raise e => Raise e
  end.

(** [l[i]] for [0 <= i]: IndexError out of range. *)
Definition getitem {A} (l : list A) (i : nat) : result A :=
  match l !! i with
  | Some a => Ok a
  | None => Raise IndexError
  end.

(** [l[-1]] *)
Definition getlast {A} (l : list A) : result A :=
  match last l with
  | Some a => Ok a
  | None => Raise IndexError
  end.

#[global] Instance result_bind : MBind result :=
  fun A B k r => bind r k.

End Py.

(** ** class LetterSum *)

Module LetterSum.

(** [sum(ord(i) - 96 for i in string.lower() if i.isalpha())] *)
Definition calculate (s : string) : Z :=
  Py.sum (List.map (fun i => Py.ord i - 96)
            (List.filter Py.isalpha (Py.chars (Py.lower s)))).

(** What one character of the argument adds to the sum. *)
Definition value (c : ascii) : Z :=
  let i := Py.lower_char c in
  if Py.isalpha i then Py.ord i - 96 else 0.

End LetterSum.

(** ** Insertion-ordered dictionaries

    A Python [dict] keeps its keys in insertion order and [items()] yields
    them in that order.  Writing an existing key keeps its place. *)

Module odict.
Section ops.
Context {K V : Type} `{EqDecision K}.

(** [d.get(k)] / [d[k]] of a present key *)
Fixpoint get (k : K) (d : list (K * V)) : option V :=
  match d with
  | [] => None
  | (k', v) :: d' => if decide (k' = k) then Some v else get k d'
  end.

(** [k in d] *)
Definition contains (k : K) (d : list (K * V)) : bool :=
  match get k d with Some _ => true | None => false end.

(** [d[k] = f(d[k])] where a missing key is first created with the
    default value [dflt]: the access pattern of a [defaultdict]. *)
Fixpoint update (dflt : V) (f : V -> V) (k : K) (d : list (K * V))
  : list (K * V) :=
  match d with
  | [] => [(k, f dflt)]
  | (k', v) :: d' =>
      if decide (k' = k) then (k', f v) :: d'
      else (k', v) :: update dflt f k d'
  end.

(** The keys are pairwise distinct, as in every Python dict. *)
Definition wf (d : list (K * V)) : Prop := NoDup (List.map fst d).
End ops.

(** [d[k].append(w)] on a [defaultdict(list)] *)
Definition append {K A} `{EqDecision K} (k : K) (w : A)
    (d : list (K * list A)) : list (K * list A) :=
  update [] (fun ws => ws ++ [w]) k d.
End odict.

(** ** Loops in the exception monad *)

(** [for x in xs: s = body(s, x)] where the body may raise. *)
Fixpoint for_each {A S : Type} (xs : list A) (body : S -> A -> Py.result S)
    (s : S) : Py.result S :=
  match xs with
  | [] => Py.Ok s
  | x :: xs' => s' ← body s x; for_each xs' body s'
  end.

(** [max(l, key=key)]: ValueError on an empty sequence, otherwise the first
    element whose key is maximal. *)
Fixpoint max_from {A : Type} (key : A -> Z) (best : A) (l : list A) : A :=
  match l with
  | [] => best
  | x :: l' => max_from key (if key best <? key x then x else best) l'
  end.

Definition py_max {A : Type} (key : A -> Z) (l : list A) : Py.result A :=
  match l with
  | [] => Py.Raise Py.ValueError
  | x :: l' => Py.Ok (max_from key x l')
  end.

(** [len(l)] of a list *)
Definition list_len {A : Type} (l : list A) : Z := Z.of_nat (length l).

(** ** class WordAnalyzer *)

Module WordAnalyzer.

(** The attributes of [self]; [stdout] collects what [print] wrote. *)
Record t : Type := mk {
  filename : string;
  odd_letter_count : Z;
  most_common_words : list (Z * list string);
  word_pairs_length_diff : list (string * string);
  word_pairs_no_common : list (string * string);
  words_length_and_sum : gmap (Z * Z) string;
  MAXLEN : Z;
  MAXSUM : Z;
  stdout : list string
}.

(** [__init__] *)
Definition init (fname : string) : t :=
  {| filename := fname;
     odd_letter_count := 0;
     most_common_words := [];
     word_pairs_length_diff := [];
     word_pairs_no_common := [];
     words_length_and_sum := ∅;
     MAXLEN := 0;
     MAXSUM := 0;
     stdout := [] |}.

Definition _process_line (self : t) (line : string) : t :=
  let ls := LetterSum.calculate line in
  {| filename := filename self;
     odd_letter_count :=
       if negb (ls mod 2 =? 0) then odd_letter_count self + 1
       else odd_letter_count self;
     most_common_words := odict.append ls line (most_common_words self);
     word_pairs_length_diff := word_pairs_length_diff self;
     word_pairs_no_common := word_pairs_no_common self;
     words_length_and_sum :=
       <[(Py.len line, ls) := line]> (words_length_and_sum self);
     MAXLEN := Z.max (MAXLEN self) (Py.len line);
     MAXSUM := Z.max (MAXSUM self) ls;
     stdout :=
       if ls =? 319 then stdout self ++ [line] else stdout self |}.

(** A sequence of [_process_line] calls, in order. *)
Definition process_lines (self : t) (lines : list string) : t :=
  fold_left _process_line lines self.

(** [process_file], given the lines the opened file yields. *)
Definition process_file (self : t) (file : list string) : t :=
  process_lines self (List.map Py.strip_lf file).

(** The analyzer after reading a corpus of words, one per line. *)
Definition build (lines : list string) : t :=
  process_lines (init "enable1.txt") lines.

(** *** _find_length_diff_pairs *)

(** [length_dict] of one bucket *)
Definition group_by_length (words : list string)
  : list (Z * list string) :=
  fold_left (fun d word => odict.append (Py.len word) word d) words [].

(** The body of the loop over [length_dict.items()]. *)
Definition pairs_of_group (length_dict : list (Z * list string))
    (length_diff : Z) (item : Z * list string) : list (string * string) :=
  let '(base_length, base_words) := item in
  let target_length := base_length + length_diff in
  match odict.get target_length length_dict with
  | Some target_words =>
      flat_map (fun w1 => List.map (fun w2 => (w1, w2)) target_words)
        base_words
  | None => []
  end.

(** The body of the loop over [most_common_words.items()]. *)
Definition length_diff_pairs_of_bucket (length_diff : Z)
    (item : Z * list string) : list (string * string) :=
  let length_dict := group_by_length (snd item) in
  flat_map (pairs_of_group length_dict length_diff) length_dict.

Definition with_length_diff (self : t) (ps : list (string * string)) : t :=
  {| filename := filename self;
     odd_letter_count := odd_letter_count self;
     most_common_words := most_common_words self;
     word_pairs_length_diff := ps;
     word_pairs_no_common := word_pairs_no_common self;
     words_length_and_sum := words_length_and_sum self;
     MAXLEN := MAXLEN self;
     MAXSUM := MAXSUM self;
     stdout := stdout self |}.

Definition _find_length_diff_pairs (self : t) (length_diff : Z) : t :=
  with_length_diff self
    (word_pairs_length_diff self ++
     flat_map (length_diff_pairs_of_bucket length_diff)
       (most_common_words self)).

(** *** _find_no_common_pairs *)

(** The body of [for end in range(start + 1, num_values)]. *)
Definition no_common_body (values : list string) (start : nat)
    (acc : list (string * string)) (end_ : nat)
  : Py.result (list (string * string)) :=
  a ← Py.getitem values start;
  b ← Py.getitem values end_;
  if Py.isdisjoint a b then Py.Ok (acc ++ [(a, b)]) else Py.Ok acc.

(** The body of the loop over [most_common_words.items()]. *)
Definition no_common_pairs_of_bucket (min_sum : Z)
    (acc : list (string * string)) (item : Z * list string)
  : Py.result (list (string * string)) :=
  let '(key, values) := item in
  if min_sum <? key then
    let num_values := length values in
    if (2 <=? num_values)%nat then
      for_each (seq 0 (num_values - 1))
        (fun acc start =>
           for_each (seq (start + 1) (num_values - (start + 1)))
             (no_common_body values start) acc)
        acc
    else Py.Ok acc
  else Py.Ok acc.

Definition with_no_common (self : t) (ps : list (string * string)) : t :=
  {| filename := filename self;
     odd_letter_count := odd_letter_count self;
     most_common_words := most_common_words self;
     word_pairs_length_diff := word_pairs_length_diff self;
     word_pairs_no_common := ps;
     words_length_and_sum := words_length_and_sum self;
     MAXLEN := MAXLEN self;
     MAXSUM := MAXSUM self;
     stdout := stdout self |}.

Definition _find_no_common_pairs (self : t) (min_sum : Z) : Py.result t :=
  ps ← for_each (most_common_words self)
         (no_common_pairs_of_bucket min_sum) (word_pairs_no_common self);
  Py.Ok (with_no_common self ps).

(** [analyze_word_pais] *)
Definition analyze_word_pais (self : t) (length_diff : Z) : Py.result t :=
  _find_no_common_pairs (_find_length_diff_pairs self length_diff) 188.

(** *** _find_most_common_word_sum *)

Definition _find_most_common_word_sum (self : t)
  : Py.result (Z * list string) :=
  py_max (fun x => list_len (snd x)) (most_common_words self).

(** *** find_longest_unique *)

(** [self.words_length_and_sum.get((length, letter_sum), "")] *)
Definition get_word (self : t) (length letter_sum : Z) : string :=
  default "" (words_length_and_sum self !! (length, letter_sum)).

(** [for letter_sum in sums: if word := get(...): ...; break]: the first
    sum of [sums] at which the index holds a non-empty word. *)
Fixpoint first_word (self : t) (length : Z) (sums : list Z)
  : option (Z * string) :=
  match sums with
  | [] => None
  | letter_sum :: sums' =>
      let word := get_word self length letter_sum in
      if Py.truthy word then Some (letter_sum, word)
      else first_word self length sums'
  end.

(** The body of [for chain in chainlist].  The state is the part of
    [chainlist] already visited (a chain extended by [chain.append] is
    changed in place) and [templist]. *)
Definition extend_chain (self : t) (length : Z)
    (st : list (list string) * list (list string)) (chain : list string)
  : Py.result (list (list string) * list (list string)) :=
  let '(visited, templist) := st in
  tail ← Py.getlast chain;
  let next_sum := LetterSum.calculate tail + 1 in
  match first_word self length (Py.range next_sum (MAXSUM self)) with
  | Some (letter_sum, word) =>
      if letter_sum =? next_sum
      then Py.Ok (visited ++ [chain ++ [word]], templist)
      else Py.Ok (visited ++ [chain], templist ++ [chain ++ [word]])
  | None => Py.Ok (visited ++ [chain], templist)
  end.

(** The body of [for length in range(self.MAXLEN, 0, -1)]; [templist] is
    empty on entry and cleared on exit. *)
Definition length_step (self : t) (chainlist : list (list string))
    (length : Z) : Py.result (list (list string)) :=
  st ← for_each chainlist (extend_chain self length) ([], []);
  let chainlist' := fst st ++ snd st in
  match first_word self length (Py.range 1 (MAXSUM self)) with
  | Some (_, word) => Py.Ok (chainlist' ++ [[word]])
  | None => Py.Ok chainlist'
  end.

Definition find_longest_unique (self : t) : Py.result (list string) :=
  chainlist ← for_each (Py.range_down (MAXLEN self)) (length_step self) [];
  py_max list_len chainlist.

End WordAnalyzer.

Import WordAnalyzer.

(** The corpus of bonus challenge 6. *)
Definition four_words : list string :=
  ["geographically"; "eavesdropper"; "woodworker"; "oxymorons"].

(** The place of a lowercase ASCII letter in the alphabet, a = 1 .. z = 26
    (0 for any other character). *)
Definition alphabet : list ascii := Py.chars "abcdefghijklmnopqrstuvwxyz".

Fixpoint index_from (n : Z) (c : ascii) (l : list ascii) : Z :=
  match l with
  | [] => 0
  | x :: l' => if Ascii.eqb x c then n else index_from (n + 1) c l'
  end.

Definition position_in_alphabet (c : ascii) : Z := index_from 1 c alphabet.

(** ** LetterSum.calculate over all of Unicode

    A Python [str] is a sequence of code points, here a list of integers.
    [str.isalpha] and [str.lower] read the Unicode character database,
    which is no part of this module: the database is a parameter.
    [str.lower] follows the default case algorithm of the Unicode
    standard: each code point is replaced by its full lowercase mapping
    (one or several code points), except the capital sigma U+03A3, which
    becomes the final small sigma U+03C2 or the small sigma U+03C3
    according to its context in the whole string. *)

Module Unicode.

Record database : Type := {
  (** [c.isalpha()] for the code point [c] *)
  isalpha : Z -> bool;
  (** the full lowercase mapping of a code point *)
  to_lower_full : Z -> list Z;
  (** the Final_Sigma condition at a position of a string *)
  final_sigma : list Z -> nat -> bool
}.

Definition CAPITAL_SIGMA : Z := 931.
Definition FINAL_SMALL_SIGMA : Z := 962.
Definition SMALL_SIGMA : Z := 963.

(** The lowercase of the code point [c] standing at index [i] of [s]. *)
Definition lower_at (db : database) (s : list Z) (i : nat) (c : Z)
  : list Z :=
  if c =? CAPITAL_SIGMA
  then [if final_sigma db s i then FINAL_SMALL_SIGMA else SMALL_SIGMA]
  else to_lower_full db c.

(** [s.lower()] *)
Definition lower (db : database) (s : list Z) : list Z :=
  concat (imap (lower_at db s) s).

(** [sum(ord(i) - 96 for i in string.lower() if i.isalpha())]; [ord] of a
    code point is the code point. *)
Definition calculate (db : database) (s : list Z) : Z :=
  Py.sum (List.map (fun i => i - 96)
            (List.filter (isalpha db) (lower db s))).

(** Two facts of the Unicode character database.  The code points of a
    lowercase mapping are not the capital sigma and are their own
    lowercase mapping; so are the two small sigmas. *)
Definition lowercase_stable (db : database) : Prop :=
  forall c c' : Z,
    c <> CAPITAL_SIGMA -> c' ∈ to_lower_full db c ->
    c' <> CAPITAL_SIGMA /\ to_lower_full db c' = [c'].

Definition sigma_stable (db : database) : Prop :=
  to_lower_full db FINAL_SMALL_SIGMA = [FINAL_SMALL_SIGMA] /\
  to_lower_full db SMALL_SIGMA = [SMALL_SIGMA].

(** The code points U+0000..U+00FF. *)
Definition latin1 (c : Z) : Prop := 0 <= c < 256.

(** The database agrees on U+0000..U+00FF with the tables of [Py]. *)
Definition agrees_on_latin1 (db : database) : Prop :=
  forall c : Z, latin1 c ->
    isalpha db c = Py.isalpha (Py.chr c) /\
    to_lower_full db c = [Py.ord (Py.lower_char (Py.chr c))].

(** The tables of [Py] as a database: nothing is alphabetic and nothing
    changes beyond U+00FF. *)
Definition latin1_db : database :=
  {| isalpha := fun c => (0 <=? c) && (c <? 256) && Py.isalpha (Py.chr c);
     to_lower_full := fun c =>
       [if (0 <=? c) && (c <? 256)
        then Py.ord (Py.lower_char (Py.chr c)) else c];
     final_sigma := fun _ _ => false |}.

(** A string within U+0000..U+00FF as a [string] of the 8-bit model. *)
Definition to_string (s : list Z) : string :=
  string_of_list_ascii (List.map Py.chr s).

(** A fragment of the character database around three code points where
    [str.lower] is no character map of the 8-bit kind: the capital alpha
    U+0391, the capital sigma U+03A3 and the dotted capital I U+0130,
    whose lowercase is [i] followed by the combining dot U+0307.  In a
    string of letters the capital sigma is final when a letter stands
    before it and none after it. *)
Definition greek_letter (c : Z) : bool :=
  (c =? 913) || (c =? 931) || (c =? 945) || (c =? 962) || (c =? 963).

Definition sample_db : database :=
  {| isalpha := fun c => isalpha latin1_db c || greek_letter c || (c =? 304);
     to_lower_full := fun c =>
       if c =? 913 then [945]
       else if c =? 304 then [105; 775]
       else to_lower_full latin1_db c;
     final_sigma := fun s i =>
       match i with
       | O => false
       | S j =>
           match s !! j, s !! S i with
           | Some before, None => greek_letter before
           | Some before, Some after =>
               greek_letter before && negb (greek_letter after)
           | None, _ => false
           end
       end |}.

End Unicode.

(** ** print_results and the script body

    What is printed is a list of lines.  [str(n)] of an integer is its
    decimal notation; the format [{n:w}] right-aligns it in [w] columns.
    [print(pair)] writes Python's [repr] of a tuple of two strings, which
    the report only passes through: it is a parameter. *)

(** [str(n)] *)
Definition str_int (n : Z) : string := NilZero.string_of_int (Z.to_int n).

(** [c * n] for a one-character string. *)
Fixpoint repeat_char (c : ascii) (n : nat) : string :=
  match n with
  | O => EmptyString
  | S k => String c (repeat_char c k)
  end.

(** [f"{n:w}"] *)
Definition format_int (w : nat) (n : Z) : string :=
  let digits := str_int n in
  String.append (repeat_char " " (w - String.length digits)) digits.

Section report.
Variable repr_pair : string * string -> string.

(** The lines printed up to the call of [find_longest_unique]. *)
Definition report_head (self : t) (most_common_sum : Z)
    (words_in_most_common_sum : list string) : list string :=
  [String.append (str_int (odd_letter_count self))
     " words have an odd letter sum";
   String.append (str_int most_common_sum)
     (String.append " is the most common letter sum, and "
        (String.append (str_int (list_len words_in_most_common_sum))
           " words have it"));
   "Pair of words with the same letter sum whose lengths differ by 11 letters"]
  ++ List.map repr_pair (word_pairs_length_diff self)
  ++ ["Pair of words with the same letter sum with no letters in common"]
  ++ List.map repr_pair (word_pairs_no_common self).

(** The lines printed after it. *)
Definition report_chain (longest_list : list string) : list string :=
  [String.append "Longest valid list found: "
     (String.append (str_int (list_len longest_list)) " words");
   "Word Length | Letter Sum | Word";
   repeat_char "-" 30]
  ++ List.map
       (fun word =>
          String.append (format_int 11 (Py.len word))
            (String.append " | "
               (String.append (format_int 10 (LetterSum.calculate word))
                  (String.append " | " word))))
       longest_list
  ++ [repeat_char "-" 30;
      "Longest list of words with unique lengths and letter sums"].

(** [print_results]: the lines printed, and the exception that ended the
    call if one did. *)
Definition print_results (self : t) : list string * option Py.exn :=
  match _find_most_common_word_sum self with
  | Py.Raise e => ([], Some e)
  | Py.Ok (most_common_sum, words_in_most_common_sum) =>
      let head := report_head self most_common_sum words_in_most_common_sum in
      match find_longest_unique self with
      | Py.Raise e => (head, Some e)
      | Py.Ok longest_list => (head ++ report_chain longest_list, None)
      end
  end.

(** The body of the script, given the lines the opened word list yields:
    everything printed, and the exception that ended the run if one did. *)
Definition main (file : list string) : list string * option Py.exn :=
  let selftest :=
    List.map (fun s => str_int (LetterSum.calculate s))
      [""; "a"; "z"; "cab"; "excellent"; "microspectrophotometries"] in
  let analyzer := process_file (init "enable1.txt") file in
  match analyze_word_pais analyzer 11 with
  | Py.Raise e => (selftest ++ stdout analyzer, Some e)
  | Py.Ok analyzer' =>
      let '(out, e) := print_results analyzer' in
      (selftest ++ stdout analyzer' ++ out, e)
  end.
End report.

(** ** Vocabulary of the properties *)

(** [matches l s w]: the word [w] has length [l] and letter sum [s]. *)
Definition matches (l s : Z) (w : string) : bool :=
  (Py.len w =? l) && (LetterSum.calculate w =? s).

(** The claim of C1 as it is worded: the index keeps the first word of
    the corpus with a given length and sum. *)
Definition first_wins (lines : list string) : Prop :=
  forall l s : Z,
    words_length_and_sum (build lines) !! (l, s) =
      List.find (matches l s) lines.

(** The claim of C4 as it is worded: a character that is not an ASCII
    letter adds nothing to the sum. *)
Definition non_ascii_letters_add_nothing : Prop :=
  forall (c : ascii) (s : string),
    Py.is_ascii_letter c = false ->
    LetterSum.calculate (String c s) = LetterSum.calculate s.

(** The word stored under [(l, s)] has length [l] and letter sum [s]. *)
Definition index_consistent (m : gmap (Z * Z) string) : Prop :=
  forall (l s : Z) (w : string),
    m !! (l, s) = Some w -> Py.len w = l /\ LetterSum.calculate w = s.

(** Every word of a bucket has the bucket's key as its letter sum. *)
Definition buckets_consistent (d : list (Z * list string)) : Prop :=
  Forall (fun item => Forall (fun w => LetterSum.calculate w = fst item)
                        (snd item)) d.

(** Both indices of an analyzer agree with the words they hold. *)
Definition consistent (self : t) : Prop :=
  index_consistent (words_length_and_sum self) /\
  buckets_consistent (most_common_words self).

(** [length_dict] after the words [words] were grouped: the keys are the
    lengths that occur, each group holds the words of its length in
    order. *)
Definition grouped (words : list string) (d : list (Z * list string))
  : Prop :=
  odict.wf d /\
  (forall L ws, (L, ws) ∈ d ->
     ws = filter (fun w => Py.len w = L) words /\ ws <> []) /\
  (forall w, w ∈ words -> is_Some (odict.get (Py.len w) d)).

(** What the test of the pair at indices [(i, j)] adds to the result. *)
Definition disjoint_pair (values : list string) (i j : nat)
  : list (string * string) :=
  match values !! i, values !! j with
  | Some a, Some b => if Py.isdisjoint a b then [(a, b)] else []
  | _, _ => []
  end.

(** The index pairs the two nested loops visit, in order. *)
Definition examined (n : nat) : list (nat * nat) :=
  flat_map (fun start => List.map (pair start)
                           (seq (start + 1) (n - (start + 1))))
    (seq 0 (n - 1)).

(** The pairs one bucket adds to [word_pairs_no_common]. *)
Definition bucket_pairs (min_sum : Z) (item : Z * list string)
  : list (string * string) :=
  if (min_sum <? fst item) && (2 <=? length (snd item))%nat then
    flat_map (fun ij => disjoint_pair (snd item) (fst ij) (snd ij))
      (examined (length (snd item)))
  else [].

(** Two words that may follow each other in a chain: the second is
    shorter and has the greater letter sum. *)
Definition chain_rel (a b : string) : Prop :=
  Py.len b < Py.len a /\ LetterSum.calculate a < LetterSum.calculate b.

(** Neighbours of a list are related by [R]. *)
Definition consecutive {A : Type} (R : A -> A -> Prop) (l : list A) : Prop :=
  forall (i : nat) (a b : A), l !! i = Some a -> l !! S i = Some b -> R a b.

(** What every candidate chain of [find_longest_unique] satisfies once the
    lengths above [bound] have been processed: it is not empty, each word
    is shorter and of greater sum than those before it, and each word is a
    word of the corpus longer than [bound] with a sum in
    [range(1, MAXSUM)]. *)
Definition chain_ok (self : t) (corpus : list string) (bound : Z)
    (chain : list string) : Prop :=
  chain <> [] /\
  StronglySorted chain_rel chain /\
  Forall (fun w => w ∈ corpus /\ bound < Py.len w /\
                   1 <= LetterSum.calculate w < MAXSUM self) chain.

(** The line feed as a one-character string. *)
Definition nl : string := String Py.LF EmptyString.

(** A word has an odd letter sum. *)
Definition odd_sum (w : string) : bool :=
  negb (LetterSum.calculate w mod 2 =? 0).

(** A dict built by [d[key(w)].append(w)] over the words [words]: its keys
    are distinct, each bucket holds the words of its key in order and is
    not empty, and every word has its bucket. *)
Definition grouped_by (key : string -> Z) (words : list string)
    (d : list (Z * list string)) : Prop :=
  odict.wf d /\
  (forall k ws, (k, ws) ∈ d ->
     ws = filter (fun w => key w = k) words /\ ws <> []) /\
  (forall w, w ∈ words -> is_Some (odict.get (key w) d)).

(** [a] occurs in [l] at a place before an occurrence of [b]. *)
Fixpoint ordered_pair {A : Type} (a b : A) (l : list A) : Prop :=
  match l with
  | [] => False
  | x :: l' => (x = a /\ b ∈ l') \/ ordered_pair a b l'
  end.

(** How many times [x] occurs in [l]. *)
Definition occurrences {A : Type} `{EqDecision A} (x : A) (l : list A) : Z :=
  list_len (filter (fun y => y = x) l).

(** * Properties *)

(** ** LetterSum.calculate *)

Example calculate_samples :
  LetterSum.calculate "" = 0 /\ LetterSum.calculate "a" = 1 /\
  LetterSum.calculate "z" = 26 /\ LetterSum.calculate "cab" = 6 /\
  LetterSum.calculate "excellent" = 100 /\
  LetterSum.calculate "microspectrophotometries" = 317.
Proof. repeat split; reflexivity. Qed.

(** The two tables agree with the Unicode character database on the whole
    range: the alphabetic code points, and the code points [str.lower]
    changes. *)
Example isalpha_table :
  List.filter (fun n => Py.isalpha (Py.chr n)) (Py.range 0 256) =
    Py.range 65 91 ++ Py.range 97 123 ++ [170; 181; 186] ++
    Py.range 192 215 ++ Py.range 216 247 ++ Py.range 248 256.
Proof. vm_compute. reflexivity. Qed.

Example lower_table :
  List.filter (fun n => negb (Py.ord (Py.lower_char (Py.chr n)) =? n))
    (Py.range 0 256) =
    Py.range 65 91 ++ Py.range 192 215 ++ Py.range 216 223 /\
  List.forallb
    (fun n => let m := Py.ord (Py.lower_char (Py.chr n)) in
              (m =? n) || (m =? n + 32))
    (Py.range 0 256) = true.
Proof. split; vm_compute; reflexivity. Qed.

Lemma sum_shift (xs : list Z) (a : Z) : fold_left Z.add xs a = a + Py.sum xs.
Proof.
  unfold Py.sum. revert a.
  induction xs as [|x xs IH]; intros a; simpl; [lia|].
  rewrite (IH (a + x)), (IH (0 + x)). lia.
Qed.

Lemma sum_cons (x : Z) (xs : list Z) : Py.sum (x :: xs) = x + Py.sum xs.
Proof. unfold Py.sum at 1. simpl. apply sum_shift. Qed.

Lemma chars_lower (s : string) :
  Py.chars (Py.lower s) = List.map Py.lower_char (Py.chars s).
Proof. unfold Py.lower, Py.chars. apply list_ascii_of_string_of_list_ascii. Qed.

(** The sum is the sum of the per-character values. *)
Lemma calculate_values (s : string) :
  LetterSum.calculate s = Py.sum (List.map LetterSum.value (Py.chars s)).
Proof.
  unfold LetterSum.calculate. rewrite chars_lower.
  induction (Py.chars s) as [|c l IH]; [reflexivity|].
  simpl. rewrite sum_cons, <- IH. unfold LetterSum.value.
  destruct (Py.isalpha (Py.lower_char c)); simpl; [apply sum_cons|lia].
Qed.

Lemma calculate_String (c : ascii) (s : string) :
  LetterSum.calculate (String c s) = LetterSum.value c + LetterSum.calculate s.
Proof. rewrite !calculate_values. simpl. apply sum_cons. Qed.

Ltac each_code_point c :=
  destruct c as [[] [] [] [] [] [] [] []]; vm_compute; try reflexivity.

Lemma lower_char_idem (c : ascii) :
  Py.lower_char (Py.lower_char c) = Py.lower_char c.
Proof. each_code_point c. Qed.

Lemma value_cases (c : ascii) :
  LetterSum.value c =
    if Py.is_ascii_letter c then position_in_alphabet (Py.lower_char c)
    else if Py.isalpha c then Py.ord (Py.lower_char c) - 96
    else 0.
Proof. each_code_point c. Qed.

Lemma calculate_nonneg (s : string) : 0 <= LetterSum.calculate s.
Proof.
  induction s as [|c s IH]; [vm_compute; discriminate|].
  rewrite calculate_String.
  assert (0 <= LetterSum.value c) by (each_code_point c; discriminate).
  lia.
Qed.

(** U+00E9 (e with acute accent) is not an ASCII letter, yet
    [str.isalpha] accepts it and it adds 233 - 96 = 137: the statement
    above fails. *)
Lemma non_ascii_letter_counts :
  ~ non_ascii_letters_add_nothing.
Proof.
  intros H. specialize (H (Py.chr 233) "" eq_refl).
  vm_compute in H. discriminate.
Qed.

(** Within U+0000..U+00FF each character adds its own value to the sum:
    an ASCII letter adds the alphabet position of its lowercase form
    (a = 1 .. z = 26), a character that [str.isalpha] rejects adds 0, and a
    non-ASCII character that [str.isalpha] accepts adds
    [ord(lower(c)) - 96]. *)
Lemma calculate_char_contribution (c : ascii) (s : string) :
  LetterSum.calculate (String c s) =
    LetterSum.calculate s +
    (if Py.is_ascii_letter c then position_in_alphabet (Py.lower_char c)
     else if Py.isalpha c then Py.ord (Py.lower_char c) - 96
     else 0).
Proof. rewrite calculate_String, value_cases. lia. Qed.

(** An ASCII letter is worth between 1 and 26. *)
Lemma ascii_letter_value_range (c : ascii) :
  Py.is_ascii_letter c = true -> 1 <= LetterSum.value c <= 26.
Proof.
  intros Hc.
  assert (implb (Py.is_ascii_letter c)
            ((1 <=? LetterSum.value c) && (LetterSum.value c <=? 26)) = true)
    as H by each_code_point c.
  rewrite Hc in H. simpl in H. apply andb_prop in H. lia.
Qed.

(** Within U+0000..U+00FF the letter sum does not depend on case. *)
Lemma calculate_lower (s : string) :
  LetterSum.calculate s = LetterSum.calculate (Py.lower s).
Proof.
  unfold LetterSum.calculate. rewrite !chars_lower.
  do 3 f_equal. rewrite List.map_map.
  apply List.map_ext. intros c. symmetry. apply lower_char_idem.
Qed.

(** ** Insertion-ordered dictionaries *)

Section odict_facts.
Context {K V : Type} `{EqDecision K}.
Implicit Types (d : list (K * V)) (k : K) (v : V).

Lemma get_update dflt (f : V -> V) k k' d :
  odict.get k (odict.update dflt f k' d) =
    if decide (k' = k) then Some (f (default dflt (odict.get k' d)))
    else odict.get k d.
Proof.
  induction d as [|[k0 v0] d IH]; simpl.
  - repeat case_decide; congruence.
  - destruct (decide (k0 = k')) as [->|Hk0]; simpl.
    + repeat case_decide; congruence.
    + rewrite IH. repeat case_decide; congruence.
Qed.

Lemma get_Some_elem k v d : odict.get k d = Some v -> (k, v) ∈ d.
Proof.
  induction d as [|[k0 v0] d IH]; simpl; [discriminate|].
  case_decide; intros Hg.
  - injection Hg as ->. subst. left.
  - right. auto.
Qed.

Lemma get_None_keys k d : odict.get k d = None -> k ∉ List.map fst d.
Proof.
  induction d as [|[k0 v0] d IH]; simpl; [intros _; apply not_elem_of_nil|].
  case_decide; [discriminate|]. intros Hg Hin.
  apply elem_of_cons in Hin as [->|Hin]; [congruence|]. by apply IH.
Qed.

Lemma elem_get k v d : odict.wf d -> (k, v) ∈ d -> odict.get k d = Some v.
Proof.
  unfold odict.wf.
  induction d as [|[k0 v0] d IH]; simpl; intros Hwf Hin.
  - by apply elem_of_nil in Hin.
  - apply NoDup_cons in Hwf as [Hk0 Hwf].
    apply elem_of_cons in Hin as [Heq|Hin].
    + injection Heq as -> ->. by rewrite decide_True.
    + rewrite decide_False; [auto|]. intros ->. apply Hk0.
      apply list_elem_of_In, in_map_iff. exists (k, v).
      split; [reflexivity|]. by apply list_elem_of_In.
Qed.

(** Where an item of an updated dict comes from. *)
Lemma elem_update dflt (f : V -> V) k' d k v :
  (k, v) ∈ odict.update dflt f k' d ->
  (k, v) ∈ d \/
  (k = k' /\ exists v0, v = f v0 /\ (v0 = dflt \/ (k', v0) ∈ d)).
Proof.
  induction d as [|[k0 v0] d IH]; simpl; intros Hin.
  - apply list_elem_of_singleton in Hin. injection Hin as -> ->.
    right. eauto.
  - case_decide; subst.
    + apply elem_of_cons in Hin as [Heq|Hin].
      * injection Heq as -> ->. right. split; [done|].
        exists v0. split; [done|]. right. left.
      * left. by right.
    + apply elem_of_cons in Hin as [Heq|Hin].
      * injection Heq as -> ->. left. left.
      * destruct (IH Hin) as [?|(-> & v1 & -> & [->|?])].
        -- left. by right.
        -- right. eauto.
        -- right. split; [done|]. exists v1. split; [done|].
           right. by right.
Qed.

Lemma keys_update dflt (f : V -> V) k' d :
  List.map fst (odict.update dflt f k' d) =
    match odict.get k' d with
    | Some _ => List.map fst d
    | None => List.map fst d ++ [k']
    end.
Proof.
  induction d as [|[k0 v0] d IH]; simpl; [done|].
  case_decide; simpl; [done|]. rewrite IH.
  by destruct (odict.get k' d).
Qed.

Lemma wf_update dflt (f : V -> V) k' d :
  odict.wf d -> odict.wf (odict.update dflt f k' d).
Proof.
  unfold odict.wf. rewrite keys_update.
  destruct (odict.get k' d) eqn:Hg; [done|]. intros Hwf.
  apply NoDup_app. split; [done|]. split; [|apply NoDup_singleton].
  intros k Hk Hk'. apply list_elem_of_singleton in Hk' as ->.
  by apply get_None_keys in Hg.
Qed.
End odict_facts.

(** ** Building the indices *)

Lemma process_lines_snoc (self : t) (lines : list string) (line : string) :
  process_lines self (lines ++ [line]) =
    _process_line (process_lines self lines) line.
Proof. unfold process_lines. apply fold_left_app. Qed.

Lemma matches_spec (l s : Z) (w : string) :
  matches l s w = true <-> (Py.len w, LetterSum.calculate w) = (l, s).
Proof.
  unfold matches. rewrite andb_true_iff, !Z.eqb_eq.
  split; [intros [-> ->]; done|intros [= -> ->]; done].
Qed.

(** The word the index holds for a pair after more lines were processed:
    the last of them with that length and sum, or else the old entry. *)
Lemma index_after_lines (self : t) (lines : list string) (l s : Z) :
  words_length_and_sum (process_lines self lines) !! (l, s) =
    match List.find (matches l s) (rev lines) with
    | Some w => Some w
    | None => words_length_and_sum self !! (l, s)
    end.
Proof.
  induction lines as [|line lines IH] using rev_ind; [reflexivity|].
  rewrite process_lines_snoc, rev_unit. simpl.
  destruct (matches l s line) eqn:Hm.
  - apply matches_spec in Hm. rewrite Hm. apply lookup_insert_eq.
  - rewrite lookup_insert_ne; [exact IH|].
    intros Heq. apply matches_spec in Heq. congruence.
Qed.

(** C1, counterexample: "ab" and "ba" both have length 2 and sum 3; after
    both lines the index holds "ba", the later one. *)
Lemma later_word_overwrites : ~ first_wins ["ab"; "ba"].
Proof. intros H. specialize (H 2 3). vm_compute in H. discriminate. Qed.

(** C1, as the code has it: for every corpus and every (length, sum) pair
    the index holds the LAST word of the corpus with that length and sum (a
    later word overwrites an earlier one), and nothing when there is none. *)
Theorem last_wins (lines : list string) (l s : Z) :
  words_length_and_sum (build lines) !! (l, s) =
    List.find (matches l s) (rev lines).
Proof.
  unfold build. rewrite index_after_lines. simpl.
  by destruct (List.find (matches l s) (rev lines)).
Qed.

(** C8: an empty line is processed like any other ([_process_line] has no
    operation that can raise, it is a total function of the state): its
    sum and length are 0, it is appended to bucket 0 of
    [most_common_words], [(0, 0)] becomes a key of [words_length_and_sum],
    and the odd counter and the output stay as they are; the maxima are
    only raised to 0 if they were below. *)
Theorem process_empty_line (self : t) :
  let self' := _process_line self "" in
  LetterSum.calculate "" = 0 /\ Py.len "" = 0 /\
  odict.get 0 (most_common_words self') =
    Some (default [] (odict.get 0 (most_common_words self)) ++ [""]) /\
  words_length_and_sum self' !! (0, 0) = Some "" /\
  odd_letter_count self' = odd_letter_count self /\
  MAXLEN self' = Z.max (MAXLEN self) 0 /\
  MAXSUM self' = Z.max (MAXSUM self) 0 /\
  stdout self' = stdout self.
Proof.
  simpl. repeat split.
  - unfold odict.append. rewrite get_update. by rewrite decide_True.
  - apply lookup_insert_eq.
Qed.

(** *** Self-consistency of the indices *)

Lemma buckets_consistent_elem (d : list (Z * list string)) :
  buckets_consistent d <->
  forall (key : Z) (words : list string) (w : string),
    (key, words) ∈ d -> w ∈ words -> LetterSum.calculate w = key.
Proof.
  unfold buckets_consistent. rewrite List.Forall_forall. split.
  - intros H key words w Hin Hw.
    apply list_elem_of_In, H in Hin. simpl in Hin.
    rewrite List.Forall_forall in Hin. by apply Hin, list_elem_of_In.
  - intros H [key words] Hin. apply List.Forall_forall. intros w Hw.
    apply (H key words w); by apply list_elem_of_In.
Qed.

Lemma consistent_init (fname : string) : consistent (init fname).
Proof.
  split.
  - intros l s w H. simpl in H. by rewrite lookup_empty in H.
  - constructor.
Qed.

Lemma consistent_process_line (self : t) (line : string) :
  consistent self -> consistent (_process_line self line).
Proof.
  intros [Hi Hb]. split; simpl.
  - intros l s w. rewrite lookup_insert. case_decide as Hk.
    + intros [= <-]. by injection Hk.
    + apply Hi.
  - rewrite buckets_consistent_elem in Hb |- *.
    intros key words w Hin Hw.
    apply elem_update in Hin as [Hin|(-> & ws & -> & Hws)]; [eauto|].
    apply elem_of_app in Hw as [Hw|Hw].
    + destruct Hws as [->|Hws]; [by apply elem_of_nil in Hw|eauto].
    + by apply list_elem_of_singleton in Hw as ->.
Qed.

Lemma consistent_process_lines (self : t) (lines : list string) :
  consistent self -> consistent (process_lines self lines).
Proof.
  revert self. induction lines as [|line lines IH]; intros self H; [done|].
  apply IH, consistent_process_line, H.
Qed.

Lemma consistent_build (lines : list string) : consistent (build lines).
Proof. apply consistent_process_lines, consistent_init. Qed.

(** C10: the self-consistency of the two indices (the word stored under
    [(l, s)] has length [l] and sum [s]; every word of bucket [s] has sum
    [s]) is kept by every [_process_line] call, hence by any sequence of
    them. *)
Theorem process_lines_consistent (self : t) (lines : list string) :
  consistent self -> consistent (process_lines self lines).
Proof. apply consistent_process_lines. Qed.

(** The four words, read by a fresh analyzer. *)
Lemma process_lines_consistent_witness :
  consistent (process_lines (init "enable1.txt") four_words).
Proof. apply process_lines_consistent, consistent_init. Defined.

(** ** Pairs whose lengths differ by a given amount *)

Lemma elem_update_wf {K V : Type} `{EqDecision K} (dflt : V) (f : V -> V)
    (k' : K) (d : list (K * V)) (k : K) (v : V) :
  odict.wf d ->
  (k, v) ∈ odict.update dflt f k' d ->
  (k = k' /\ v = f (default dflt (odict.get k' d))) \/
  (k <> k' /\ (k, v) ∈ d).
Proof.
  intros Hwf Hin.
  apply (elem_get _ _ _ (wf_update dflt f k' d Hwf)) in Hin.
  rewrite get_update in Hin. case_decide as Hk.
  - left. split; congruence.
  - right. split; [congruence|]. by apply get_Some_elem.
Qed.

Lemma filter_none (P : string -> Prop) `{forall w, Decision (P w)}
    (l : list string) :
  (forall w, w ∈ l -> ~ P w) -> filter P l = [].
Proof.
  induction l as [|x l IH]; intros Hl; [done|].
  rewrite filter_cons_False by (apply Hl; left).
  apply IH. intros w Hw. apply Hl. by right.
Qed.

Lemma grouped_append (words : list string) (d : list (Z * list string))
    (word : string) :
  grouped words d ->
  grouped (words ++ [word]) (odict.append (Py.len word) word d).
Proof.
  intros (Hwf & Hgrp & Hall). unfold odict.append.
  split; [by apply wf_update|]. split.
  - intros L ws Hin.
    apply elem_update_wf in Hin; [|exact Hwf].
    destruct Hin as [[-> ->]|[Hne Hin]].
    + split; [|intros Hnil; by apply app_eq_nil in Hnil as [_ ?]].
      rewrite filter_app, filter_cons_True, filter_nil by done.
      f_equal. destruct (odict.get (Py.len word) d) as [ws0|] eqn:Hg; simpl.
      * by apply get_Some_elem, Hgrp in Hg as [-> _].
      * symmetry. apply filter_none.
        intros w Hw Hlen. apply Hall in Hw as [? Hw]. congruence.
    + rewrite filter_app, filter_cons_False, filter_nil, app_nil_r by done.
      by apply Hgrp.
  - intros w Hw. rewrite get_update. case_decide as Hk; [done|].
    apply elem_of_app in Hw as [Hw|Hw]; [by apply Hall|].
    by apply list_elem_of_singleton in Hw as ->.
Qed.

Lemma grouped_fold (words pre : list string) (d : list (Z * list string)) :
  grouped pre d ->
  grouped (pre ++ words)
    (fold_left (fun d word => odict.append (Py.len word) word d) words d).
Proof.
  revert pre d. induction words as [|w words IH]; intros pre d H; simpl.
  - by rewrite app_nil_r.
  - replace (pre ++ w :: words) with ((pre ++ [w]) ++ words)
      by (by rewrite <- app_assoc).
    by apply IH, grouped_append.
Qed.

Lemma group_by_length_grouped (words : list string) :
  grouped words (group_by_length words).
Proof.
  apply (grouped_fold words [] []).
  split; [apply NoDup_nil_2|]. split.
  - intros L ws Hin. by apply elem_of_nil in Hin.
  - intros w Hw. by apply elem_of_nil in Hw.
Qed.

(** The pairs one bucket yields: the full cross product of each length
    group with the group [length_diff] longer. *)
Lemma elem_length_diff_pairs_of_bucket (delta : Z) (item : Z * list string)
    (w1 w2 : string) :
  (w1, w2) ∈ length_diff_pairs_of_bucket delta item <->
  w1 ∈ snd item /\ w2 ∈ snd item /\ Py.len w2 - Py.len w1 = delta.
Proof.
  unfold length_diff_pairs_of_bucket.
  destruct (group_by_length_grouped (snd item)) as (Hwf & Hgrp & Hall).
  set (d := group_by_length (snd item)) in *.
  rewrite list_elem_of_In, in_flat_map. split.
  - intros ([L ws] & Hin & Hp). unfold pairs_of_group in Hp.
    destruct (odict.get (L + delta) d) as [tw|] eqn:Hg; [|done].
    apply in_flat_map in Hp as (x & Hx & Hp).
    apply in_map_iff in Hp as (y & [= -> ->] & Hy).
    apply list_elem_of_In, Hgrp in Hin as [-> _].
    apply get_Some_elem, Hgrp in Hg as [-> _].
    apply list_elem_of_In, list_elem_of_filter in Hx as [Hx1 Hx2].
    apply list_elem_of_In, list_elem_of_filter in Hy as [Hy1 Hy2].
    repeat split; [done|done|lia].
  - intros (H1 & H2 & Hlen).
    destruct (Hall _ H1) as [ws1 Hg1]. destruct (Hall _ H2) as [ws2 Hg2].
    exists (Py.len w1, ws1). split.
    + by apply list_elem_of_In, get_Some_elem.
    + unfold pairs_of_group.
      replace (Py.len w1 + delta) with (Py.len w2) by lia. rewrite Hg2.
      apply get_Some_elem, Hgrp in Hg1 as [-> _].
      apply get_Some_elem, Hgrp in Hg2 as [-> _].
      apply in_flat_map. exists w1. split.
      * by apply list_elem_of_In, list_elem_of_filter.
      * apply in_map_iff. exists w2. split; [done|].
        by apply list_elem_of_In, list_elem_of_filter.
Qed.

(** C6: on a sum index whose buckets are consistent,
    [_find_length_diff_pairs] appends to [word_pairs_length_diff] exactly
    the pairs [(w1, w2)] of two words of one bucket (so of equal letter
    sum, the bucket's key) with [len(w2) - len(w1) = length_diff]: none
    else, and all of them. *)
Theorem find_length_diff_pairs_spec (self : t) (length_diff : Z) :
  buckets_consistent (most_common_words self) ->
  exists found : list (string * string),
    word_pairs_length_diff (_find_length_diff_pairs self length_diff) =
      word_pairs_length_diff self ++ found /\
    forall w1 w2 : string,
      (w1, w2) ∈ found <->
      exists (key : Z) (words : list string),
        (key, words) ∈ most_common_words self /\
        w1 ∈ words /\ w2 ∈ words /\
        LetterSum.calculate w1 = key /\ LetterSum.calculate w2 = key /\
        Py.len w2 - Py.len w1 = length_diff.
Proof.
  intros Hb. rewrite buckets_consistent_elem in Hb.
  eexists. split; [reflexivity|]. intros w1 w2.
  rewrite list_elem_of_In, in_flat_map. split.
  - intros ([key words] & Hin & Hp).
    apply list_elem_of_In in Hin.
    apply list_elem_of_In, elem_length_diff_pairs_of_bucket in Hp
      as (H1 & H2 & Hlen).
    exists key, words. eauto 10.
  - intros (key & words & Hin & H1 & H2 & _ & _ & Hlen).
    exists (key, words). split; [by apply list_elem_of_In|].
    by apply list_elem_of_In, elem_length_diff_pairs_of_bucket.
Qed.

(** The pair of bonus challenge 4, with a third word in another bucket. *)
Lemma find_length_diff_pairs_spec_witness :
  exists found : list (string * string),
    let self := build ["zyzzyva"; "biodegradabilities"; "ab"] in
    word_pairs_length_diff (_find_length_diff_pairs self 11) =
      word_pairs_length_diff self ++ found /\
    forall w1 w2 : string,
      (w1, w2) ∈ found <->
      exists (key : Z) (words : list string),
        (key, words) ∈ most_common_words self /\
        w1 ∈ words /\ w2 ∈ words /\
        LetterSum.calculate w1 = key /\ LetterSum.calculate w2 = key /\
        Py.len w2 - Py.len w1 = 11.
Proof.
  apply (find_length_diff_pairs_spec
           (build ["zyzzyva"; "biodegradabilities"; "ab"]) 11).
  repeat constructor.
Defined.

(** ** Loops that only collect *)

Lemma for_each_cons {A S : Type} (x : A) (xs : list A)
    (body : S -> A -> Py.result S) (s : S) :
  for_each (x :: xs) body s = Py.bind (body s x) (for_each xs body).
Proof. reflexivity. Qed.

(** A loop whose body appends [g x] to the accumulator never raises and
    appends the [g x] in order. *)
Lemma for_each_collect {A B : Type} (g : A -> list B) (xs : list A)
    (body : list B -> A -> Py.result (list B)) (acc : list B) :
  (forall x acc, x ∈ xs -> body acc x = Py.Ok (acc ++ g x)) ->
  for_each xs body acc = Py.Ok (acc ++ flat_map g xs).
Proof.
  revert acc. induction xs as [|x xs IH]; intros acc Hbody.
  - simpl. by rewrite app_nil_r.
  - rewrite for_each_cons, Hbody by left. simpl.
    rewrite IH, app_assoc; [done|]. intros y acc' Hy. apply Hbody. by right.
Qed.

Lemma flat_map_nested {A B C : Type} (g : B -> list C) (h : A -> list B)
    (xs : list A) :
  flat_map g (flat_map h xs) = flat_map (fun x => flat_map g (h x)) xs.
Proof.
  induction xs as [|x xs IH]; simpl; [done|].
  by rewrite flat_map_app, IH.
Qed.

Lemma flat_map_map {A B C : Type} (g : B -> list C) (f : A -> B)
    (xs : list A) :
  flat_map g (List.map f xs) = flat_map (fun x => g (f x)) xs.
Proof. induction xs as [|x xs IH]; simpl; [done|]. by rewrite IH. Qed.

(** ** Pairs with no letter in common *)

Lemma isdisjoint_spec (a b : string) :
  Py.isdisjoint a b = true <->
  forall c : ascii, c ∈ Py.chars a -> c ∉ Py.chars b.
Proof.
  unfold Py.isdisjoint. rewrite forallb_forall. split.
  - intros H c Ha Hb. apply list_elem_of_In, H in Ha.
    apply negb_true_iff, not_true_iff_false in Ha. apply Ha.
    apply existsb_exists. exists c. split; [by apply list_elem_of_In|].
    apply Ascii.eqb_refl.
  - intros H c Ha. apply negb_true_iff, not_true_iff_false.
    intros Hex. apply existsb_exists in Hex as (c' & Hb & Heq).
    apply Ascii.eqb_eq in Heq as <-.
    by apply (H c); apply list_elem_of_In.
Qed.

Lemma elem_examined (n i j : nat) :
  (i, j) ∈ examined n <-> (i < j < n)%nat.
Proof.
  unfold examined. rewrite list_elem_of_In, in_flat_map. split.
  - intros (start & Hs & Hin). apply in_seq in Hs.
    apply in_map_iff in Hin as (e & [= -> ->] & He). apply in_seq in He. lia.
  - intros Hij. exists i. split; [apply in_seq; lia|].
    apply in_map_iff. exists j. split; [done|]. apply in_seq. lia.
Qed.

Lemma no_common_body_ok (values : list string) (start end_ : nat)
    (acc : list (string * string)) :
  (start < length values)%nat -> (end_ < length values)%nat ->
  no_common_body values start acc end_ =
    Py.Ok (acc ++ disjoint_pair values start end_).
Proof.
  intros Hs He. unfold no_common_body, disjoint_pair, Py.getitem.
  apply lookup_lt_is_Some_2 in Hs as [a ->].
  apply lookup_lt_is_Some_2 in He as [b ->]. simpl.
  destruct (Py.isdisjoint a b); [done|by rewrite app_nil_r].
Qed.

(** The loop over one bucket never raises: every index it uses is in
    range. *)
Lemma no_common_pairs_of_bucket_ok (min_sum : Z)
    (acc : list (string * string)) (item : Z * list string) :
  no_common_pairs_of_bucket min_sum acc item =
    Py.Ok (acc ++ bucket_pairs min_sum item).
Proof.
  destruct item as [key values].
  unfold no_common_pairs_of_bucket, bucket_pairs. cbn [fst snd].
  destruct (min_sum <? key); cbn [andb]; [|by rewrite app_nil_r].
  destruct (2 <=? length values)%nat eqn:Hn; [|by rewrite app_nil_r].
  apply Nat.leb_le in Hn. unfold examined. rewrite flat_map_nested.
  apply for_each_collect. intros start acc' Hs.
  apply list_elem_of_In, in_seq in Hs.
  rewrite (for_each_collect (disjoint_pair values start)).
  - by rewrite flat_map_map.
  - intros e acc'' He. apply list_elem_of_In, in_seq in He.
    apply no_common_body_ok; lia.
Qed.

Lemma elem_bucket_pairs (min_sum : Z) (item : Z * list string)
    (w1 w2 : string) :
  (w1, w2) ∈ bucket_pairs min_sum item <->
  min_sum < fst item /\ (2 <= length (snd item))%nat /\
  exists i j : nat,
    (i < j)%nat /\ snd item !! i = Some w1 /\ snd item !! j = Some w2 /\
    Py.isdisjoint w1 w2 = true.
Proof.
  destruct item as [key values]. unfold bucket_pairs. cbn [fst snd]. split.
  - destruct (min_sum <? key) eqn:Hk; cbn [andb];
      [|intros H; by apply elem_of_nil in H].
    destruct (2 <=? length values)%nat eqn:Hn;
      [|intros H; by apply elem_of_nil in H].
    rewrite list_elem_of_In, in_flat_map. intros ([i j] & Hij & Hp).
    apply list_elem_of_In, elem_examined in Hij.
    unfold disjoint_pair in Hp. simpl in Hp.
    destruct (values !! i) as [a|] eqn:Ha; [|done].
    destruct (values !! j) as [b|] eqn:Hb; [|done].
    destruct (Py.isdisjoint a b) eqn:Hd; [|done].
    destruct Hp as [[= <- <-]|[]].
    apply Z.ltb_lt in Hk. apply Nat.leb_le in Hn.
    split; [done|]. split; [done|]. exists i, j. split; [lia|done].
  - intros (Hk & Hn & i & j & Hij & Hi & Hj & Hd).
    apply Z.ltb_lt in Hk. apply Nat.leb_le in Hn. rewrite Hk, Hn.
    cbn [andb]. apply list_elem_of_In, in_flat_map. exists (i, j). split.
    + apply list_elem_of_In, elem_examined.
      apply lookup_lt_Some in Hj. lia.
    + unfold disjoint_pair. simpl. rewrite Hi, Hj, Hd. by left.
Qed.

(** C7: on a sum index whose buckets are consistent,
    [_find_no_common_pairs] never raises and appends to
    [word_pairs_no_common] exactly the pairs [(values[i], values[j])] with
    [i < j] taken within one bucket whose key is strictly greater than
    [min_sum] and which holds at least two words, such that the two words
    have no character in common; both words then have the bucket's key as
    their letter sum.  Words of different buckets are never paired. *)
Theorem find_no_common_pairs_spec (self : t) (min_sum : Z) :
  buckets_consistent (most_common_words self) ->
  exists found : list (string * string),
    _find_no_common_pairs self min_sum =
      Py.Ok (with_no_common self (word_pairs_no_common self ++ found)) /\
    forall w1 w2 : string,
      (w1, w2) ∈ found <->
      exists (key : Z) (values : list string) (i j : nat),
        (key, values) ∈ most_common_words self /\
        min_sum < key /\ (2 <= length values)%nat /\ (i < j)%nat /\
        values !! i = Some w1 /\ values !! j = Some w2 /\
        LetterSum.calculate w1 = key /\ LetterSum.calculate w2 = key /\
        (forall c : ascii, c ∈ Py.chars w1 -> c ∉ Py.chars w2).
Proof.
  intros Hb. rewrite buckets_consistent_elem in Hb.
  exists (flat_map (bucket_pairs min_sum) (most_common_words self)).
  split.
  - unfold _find_no_common_pairs.
    rewrite (for_each_collect (bucket_pairs min_sum)); [done|].
    intros item acc _. apply no_common_pairs_of_bucket_ok.
  - intros w1 w2. rewrite list_elem_of_In, in_flat_map. split.
    + intros ([key values] & Hin & Hp). apply list_elem_of_In in Hin.
      apply list_elem_of_In, elem_bucket_pairs in Hp
        as (Hk & Hn & i & j & Hij & Hi & Hj & Hd).
      simpl in *. exists key, values, i, j.
      repeat (split; [done|]).
      split; [by eapply Hb, list_elem_of_lookup_2|].
      split; [by eapply Hb, list_elem_of_lookup_2|].
      by apply isdisjoint_spec.
    + intros (key & values & i & j & Hin & Hk & Hn & Hij & Hi & Hj & _ & _
              & Hd).
      exists (key, values). split; [by apply list_elem_of_In|].
      apply list_elem_of_In, elem_bucket_pairs. simpl.
      split; [done|]. split; [done|]. exists i, j.
      repeat (split; [done|]). by apply isdisjoint_spec.
Qed.

(** The pair of bonus challenge 5, with a bucket below the threshold. *)
Lemma find_no_common_pairs_spec_witness :
  exists found : list (string * string),
    let self := build ["cytotoxicity"; "unreservedness"; "ab"; "ba"] in
    _find_no_common_pairs self 187 =
      Py.Ok (with_no_common self (word_pairs_no_common self ++ found)) /\
    forall w1 w2 : string,
      (w1, w2) ∈ found <->
      exists (key : Z) (values : list string) (i j : nat),
        (key, values) ∈ most_common_words self /\
        187 < key /\ (2 <= length values)%nat /\ (i < j)%nat /\
        values !! i = Some w1 /\ values !! j = Some w2 /\
        LetterSum.calculate w1 = key /\ LetterSum.calculate w2 = key /\
        (forall c : ascii, c ∈ Py.chars w1 -> c ∉ Py.chars w2).
Proof.
  apply (find_no_common_pairs_spec
           (build ["cytotoxicity"; "unreservedness"; "ab"; "ba"]) 187).
  repeat constructor.
Defined.

(** ** The chain builder *)

(** A loop whose body keeps an invariant and never raises on the items it
    is given never raises and ends in the invariant. *)
Lemma for_each_inv {A S : Type} (I : S -> Prop) (P : A -> Prop)
    (xs : list A) (body : S -> A -> Py.result S) (s : S) :
  Forall P xs ->
  (forall s x, P x -> I s -> exists s', body s x = Py.Ok s' /\ I s') ->
  I s ->
  exists s', for_each xs body s = Py.Ok s' /\ I s'.
Proof.
  intros Hxs Hbody. revert s.
  induction Hxs as [|x xs Hx _ IH]; intros s Hs; [by exists s|].
  destruct (Hbody s x Hx Hs) as (s1 & Heq & Hs1).
  rewrite for_each_cons, Heq. simpl. by apply IH.
Qed.

Lemma elem_range (a b s : Z) : s ∈ Py.range a b -> a <= s < b.
Proof.
  unfold Py.range. rewrite list_elem_of_In, in_map_iff.
  intros (i & <- & Hi). apply in_seq in Hi. lia.
Qed.

Lemma max_from_elem {A : Type} (key : A -> Z) (best : A) (l : list A) :
  max_from key best l = best \/ max_from key best l ∈ l.
Proof.
  revert best. induction l as [|x l IH]; intros best; simpl; [by left|].
  destruct (IH (if key best <? key x then x else best)) as [->|Hin].
  - destruct (key best <? key x); [right; left|by left].
  - right. by right.
Qed.

Lemma py_max_elem {A : Type} (key : A -> Z) (l : list A) (x : A) :
  py_max key l = Py.Ok x -> x ∈ l.
Proof.
  destruct l as [|y l]; simpl; [done|]. intros [= <-].
  destruct (max_from_elem key y l) as [->|Hin]; [left|by right].
Qed.

Lemma StronglySorted_consecutive {A : Type} (R : A -> A -> Prop)
    (l : list A) :
  StronglySorted R l -> consecutive R l.
Proof.
  induction 1 as [|x l Hl IH Hx]; intros i a b Ha Hb; [done|].
  destruct i as [|i]; simpl in *.
  - injection Ha as <-. rewrite List.Forall_forall in Hx.
    by eapply Hx, list_elem_of_In, list_elem_of_lookup_2.
  - by eapply IH.
Qed.

Lemma StronglySorted_NoDup {A B : Type} (R : A -> A -> Prop) (f : A -> B)
    (l : list A) :
  (forall a b, R a b -> f a <> f b) ->
  StronglySorted R l -> NoDup (List.map f l).
Proof.
  intros HR. induction 1 as [|x l Hl IH Hx]; simpl; [apply NoDup_nil_2|].
  apply NoDup_cons_2; [|done]. rewrite List.Forall_forall in Hx.
  intros Hin. apply list_elem_of_In, in_map_iff in Hin as (y & Hy & Hin).
  by apply (HR x y (Hx y Hin)).
Qed.

Section chains.
Variable self : t.
Variable corpus : list string.
Hypothesis index_ok : index_consistent (words_length_and_sum self).
Hypothesis index_corpus :
  forall l s w, words_length_and_sum self !! (l, s) = Some w -> w ∈ corpus.

Local Abbreviation valid := (chain_ok self corpus).

Lemma first_word_Some (length : Z) (sums : list Z) (s : Z) (w : string) :
  first_word self length sums = Some (s, w) ->
  s ∈ sums /\ words_length_and_sum self !! (length, s) = Some w.
Proof.
  induction sums as [|s0 sums IH]; simpl; [done|].
  unfold get_word.
  destruct (words_length_and_sum self !! (length, s0)) as [w0|] eqn:Hw;
    simpl.
  - destruct (Py.truthy w0).
    + intros [= <- <-]. split; [left|done].
    + intros H. apply IH in H as [? ?]. split; [by right|done].
  - intros H. apply IH in H as [? ?]. split; [by right|done].
Qed.

(** A word found at [length] with a sum in [range(lo, MAXSUM)]. *)
Lemma first_word_found (length lo s : Z) (w : string) :
  1 <= lo ->
  first_word self length (Py.range lo (MAXSUM self)) = Some (s, w) ->
  w ∈ corpus /\ Py.len w = length /\ LetterSum.calculate w = s /\
  lo <= s < MAXSUM self.
Proof.
  intros Hlo H. apply first_word_Some in H as [Hs Hw].
  apply elem_range in Hs. destruct (index_ok _ _ _ Hw) as [? ?].
  split; [by eapply index_corpus|done].
Qed.

Lemma chain_ok_weaken (b b' : Z) (chain : list string) :
  b' <= b -> valid b chain -> valid b' chain.
Proof.
  intros Hb (Hne & Hs & Hall). repeat split; [done|done|].
  eapply Forall_impl; [exact Hall|]. simpl. intros w (? & ? & ?).
  repeat split; [done|lia|lia|lia].
Qed.

Lemma chain_ok_singleton (length s : Z) (w : string) :
  first_word self length (Py.range 1 (MAXSUM self)) = Some (s, w) ->
  valid (length - 1) [w].
Proof.
  intros H. apply first_word_found in H as (? & ? & ? & ?); [|lia].
  repeat split; [done|repeat constructor|].
  repeat constructor; [done|lia|lia|lia].
Qed.

(** Appending the word found for [length] to a chain whose words are all
    longer. *)
Lemma chain_ok_snoc (length s : Z) (chain : list string) (tail w : string) :
  valid length chain ->
  last chain = Some tail ->
  first_word self length
    (Py.range (LetterSum.calculate tail + 1) (MAXSUM self)) = Some (s, w) ->
  valid (length - 1) (chain ++ [w]).
Proof.
  intros (Hne & Hs & Hall) Htail H.
  assert (1 <= LetterSum.calculate tail + 1)
    by (pose proof (calculate_nonneg tail); lia).
  apply first_word_found in H as (Hc & Hlen & Hsum & Hrange); [|done].
  apply last_Some in Htail as [pre ->].
  split; [by destruct pre|]. split.
  - apply StronglySorted_app_2; [|done|repeat constructor].
    intros x y Hx Hy. apply list_elem_of_singleton in Hy as ->.
    rewrite Forall_forall in Hall. destruct (Hall x Hx) as (_ & ? & _).
    split; [lia|].
    apply elem_of_app in Hx as [Hx|Hx].
    + destruct (StronglySorted_app_1_elem_of _ _ _ x tail Hs Hx) as [_ ?];
        [left|lia].
    + apply list_elem_of_singleton in Hx as ->. lia.
  - apply Forall_app. split.
    + eapply Forall_impl; [exact Hall|]. simpl. intros x (? & ? & ?).
      repeat split; [done|lia|lia|lia].
    + repeat constructor; [done|lia|lia|lia].
Qed.

(** One chain visited at [length]: never an IndexError, and the chains
    stay valid. *)
Lemma extend_chain_inv (length : Z)
    (st : list (list string) * list (list string)) (chain : list string) :
  valid length chain ->
  Forall (valid (length - 1)) (fst st) /\
  Forall (valid (length - 1)) (snd st) ->
  exists st',
    extend_chain self length st chain = Py.Ok st' /\
    Forall (valid (length - 1)) (fst st') /\
    Forall (valid (length - 1)) (snd st').
Proof.
  intros Hc [Hv Ht]. destruct st as [visited templist]. simpl in Hv, Ht.
  assert (valid (length - 1) chain) as Hc'
    by (eapply chain_ok_weaken; [|exact Hc]; lia).
  unfold extend_chain, Py.getlast.
  destruct (last chain) as [tail|] eqn:Htail;
    [|apply last_None in Htail; by destruct Hc].
  simpl.
  destruct (first_word self length _) as [[s w]|] eqn:Hf.
  - pose proof (chain_ok_snoc _ _ _ _ _ Hc Htail Hf) as Hnew.
    destruct (s =? LetterSum.calculate tail + 1); eexists;
      (split; [reflexivity|]); simpl; split; try done;
      apply Forall_app; split; try done; by apply Forall_singleton.
  - eexists. split; [reflexivity|]. simpl. split; [|done].
    apply Forall_app. split; [done|by apply Forall_singleton].
Qed.

Lemma length_step_inv (length : Z) (chainlist : list (list string)) :
  Forall (valid length) chainlist ->
  exists chainlist',
    length_step self chainlist length = Py.Ok chainlist' /\
    Forall (valid (length - 1)) chainlist'.
Proof.
  intros Hcl. unfold length_step.
  destruct (for_each_inv
              (fun st => Forall (valid (length - 1)) (fst st) /\
                         Forall (valid (length - 1)) (snd st))
              (valid length) chainlist (extend_chain self length)
              ([], []) Hcl) as (st & -> & Hv & Ht).
  - intros st x Hx Hst. by apply extend_chain_inv.
  - by split.
  - simpl.
    assert (Forall (valid (length - 1)) (st.1 ++ st.2))
      by (apply Forall_app; by split).
    destruct (first_word self length _) as [[s w]|] eqn:Hf.
    + eexists. split; [reflexivity|].
      apply Forall_app. split; [done|].
      apply Forall_singleton. by eapply chain_ok_singleton.
    + by eexists.
Qed.

Lemma countdown_inv (n : nat) (chainlist : list (list string)) :
  Forall (valid (Z.of_nat n)) chainlist ->
  exists chainlist',
    for_each (Py.countdown n) (length_step self) chainlist
      = Py.Ok chainlist' /\
    Forall (valid 0) chainlist'.
Proof.
  revert chainlist. induction n as [|n IH]; intros chainlist Hcl.
  - by exists chainlist.
  - change (Py.countdown (S n)) with (Z.of_nat (S n) :: Py.countdown n).
    apply length_step_inv in Hcl as (cl1 & Heq & Hcl1).
    rewrite for_each_cons, Heq. simpl. apply IH.
    by replace (Z.of_nat n) with (Z.of_nat (S n) - 1) by lia.
Qed.

(** [find_longest_unique] raises nothing but the ValueError of [max] on
    an empty candidate list, and what it returns is a valid chain. *)
Lemma find_longest_unique_inv :
  match find_longest_unique self with
  | Py.Ok chain => valid 0 chain
  | Py.Raise e => e = Py.ValueError
  end.
Proof.
  unfold find_longest_unique, Py.range_down.
  destruct (countdown_inv (Z.to_nat (MAXLEN self)) []) as (cl & -> & Hcl);
    [constructor|]. simpl.
  destruct (py_max list_len cl) as [chain|e] eqn:Hmax.
  - apply py_max_elem in Hmax. rewrite Forall_forall in Hcl. by apply Hcl.
  - destruct cl; simpl in Hmax; [by injection Hmax|done].
Qed.
End chains.

Lemma build_index_corpus (lines : list string) (l s : Z) (w : string) :
  words_length_and_sum (build lines) !! (l, s) = Some w -> w ∈ lines.
Proof.
  unfold build. rewrite index_after_lines. simpl.
  destruct (List.find _ _) as [w'|] eqn:Hf; [|by rewrite lookup_empty].
  intros [= ->]. apply find_some in Hf as [Hin _].
  by apply list_elem_of_In, in_rev.
Qed.

Lemma build_chain_ok (lines chain : list string) :
  find_longest_unique (build lines) = Py.Ok chain ->
  chain_ok (build lines) lines 0 chain.
Proof.
  intros H.
  pose proof (find_longest_unique_inv (build lines) lines
                (proj1 (consistent_build lines))
                (build_index_corpus lines)) as Hinv.
  by rewrite H in Hinv.
Qed.

(** C5: when [find_longest_unique] returns a list for a built corpus,
    neighbours in it have strictly descending lengths and strictly
    ascending letter sums, no two of its words share a length or a letter
    sum, and each of its words is a word of the corpus. *)
Theorem find_longest_unique_valid (lines chain : list string) :
  find_longest_unique (build lines) = Py.Ok chain ->
  consecutive (fun a b => Py.len b < Py.len a) chain /\
  consecutive (fun a b => LetterSum.calculate a < LetterSum.calculate b)
    chain /\
  NoDup (List.map Py.len chain) /\
  NoDup (List.map LetterSum.calculate chain) /\
  Forall (fun w => w ∈ lines) chain.
Proof.
  intros H. apply build_chain_ok in H as (_ & Hs & Hall).
  pose proof (StronglySorted_consecutive _ _ Hs) as Hc.
  split; [intros i a b Ha Hb; by destruct (Hc i a b Ha Hb)|].
  split; [intros i a b Ha Hb; by destruct (Hc i a b Ha Hb)|].
  split; [|split].
  - eapply StronglySorted_NoDup; [|exact Hs]. intros a b [? _]. lia.
  - eapply StronglySorted_NoDup; [|exact Hs]. intros a b [_ ?]. lia.
  - eapply Forall_impl; [exact Hall|]. by intros w [? _].
Qed.

(** The chain returned on the four words. *)
Lemma find_longest_unique_valid_witness :
  let chain := ["geographically"; "eavesdropper"; "woodworker"] in
  consecutive (fun a b => Py.len b < Py.len a) chain /\
  consecutive (fun a b => LetterSum.calculate a < LetterSum.calculate b)
    chain /\
  NoDup (List.map Py.len chain) /\
  NoDup (List.map LetterSum.calculate chain) /\
  Forall (fun w => w ∈ four_words) chain.
Proof. apply (find_longest_unique_valid four_words). reflexivity. Defined.

(** C2: on the corpus of the four words the chain builder returns three
    of them: "oxymorons", whose sum 158 is the corpus maximum, is left
    out, because [range(..., MAXSUM)] stops before [MAXSUM]. *)
Theorem four_words_chain :
  List.map (fun w => (Py.len w, LetterSum.calculate w)) four_words =
    [(14, 139); (12, 144); (10, 147); (9, 158)] /\
  MAXSUM (build four_words) = 158 /\
  find_longest_unique (build four_words) =
    Py.Ok ["geographically"; "eavesdropper"; "woodworker"].
Proof. repeat split; reflexivity. Qed.

(** C3: a non-empty corpus exists, the one word "a", all of whose words
    have the maximal sum [MAXSUM] and on which [find_longest_unique]
    raises the ValueError of [max] over an empty list; and on every corpus
    no word of a returned chain has the sum [MAXSUM], since both searches
    stop before it, the only exception raised being that ValueError. *)
Theorem max_sum_word_never_chained :
  (exists lines : list string,
     lines <> [] /\
     Forall (fun w => LetterSum.calculate w = MAXSUM (build lines)) lines /\
     find_longest_unique (build lines) = Py.Raise Py.ValueError) /\
  (forall lines : list string,
     match find_longest_unique (build lines) with
     | Py.Ok chain =>
         Forall (fun w => LetterSum.calculate w < MAXSUM (build lines)) chain
     | Py.Raise e => e = Py.ValueError
     end).
Proof.
  split.
  - exists ["a"]. split; [done|]. split; [by repeat constructor|reflexivity].
  - intros lines.
    pose proof (find_longest_unique_inv (build lines) lines
                  (proj1 (consistent_build lines))
                  (build_index_corpus lines)) as Hinv.
    destruct (find_longest_unique (build lines)) as [chain|e]; [|done].
    destruct Hinv as (_ & _ & Hall).
    eapply Forall_impl; [exact Hall|]. simpl. intros w (_ & _ & ?). lia.
Qed.

(** * Further properties *)

(** ** The letter sum as a function of the characters *)

Lemma chars_append (s1 s2 : string) :
  Py.chars (String.append s1 s2) = Py.chars s1 ++ Py.chars s2.
Proof.
  unfold Py.chars. induction s1 as [|c s1 IH]; simpl; [done|].
  by rewrite IH.
Qed.

Lemma sum_app (xs ys : list Z) : Py.sum (xs ++ ys) = Py.sum xs + Py.sum ys.
Proof.
  induction xs as [|x xs IH]; simpl; [done|].
  rewrite !sum_cons, IH. lia.
Qed.

Lemma sum_Permutation (xs ys : list Z) :
  xs ≡ₚ ys -> Py.sum xs = Py.sum ys.
Proof.
  induction 1 as [|x xs ys _ IH|x y xs|xs ys zs _ IH1 _ IH2].
  - done.
  - by rewrite !sum_cons, IH.
  - rewrite !sum_cons. lia.
  - by rewrite IH1.
Qed.

Lemma value_zero_iff (c : ascii) :
  0 <= LetterSum.value c /\
  (LetterSum.value c = 0 <-> Py.isalpha c = false).
Proof.
  assert ((0 <=? LetterSum.value c) &&
          eqb (LetterSum.value c =? 0) (negb (Py.isalpha c)) = true) as H
    by each_code_point c.
  apply andb_prop in H as [H0 Heq]. apply eqb_prop in Heq.
  split; [lia|]. rewrite <- Z.eqb_eq, Heq. by destruct (Py.isalpha c).
Qed.

(** In the 8-bit model the letter sum of a concatenation is the sum of the
    letter sums of its parts. *)
Lemma calculate_append (s1 s2 : string) :
  LetterSum.calculate (String.append s1 s2) =
    LetterSum.calculate s1 + LetterSum.calculate s2.
Proof.
  rewrite !calculate_values, chars_append, List.map_app. apply sum_app.
Qed.

(** In the 8-bit model two strings made of the same characters, in any
    order, have the same letter sum. *)
Lemma calculate_anagram (s1 s2 : string) :
  Py.chars s1 ≡ₚ Py.chars s2 ->
  LetterSum.calculate s1 = LetterSum.calculate s2.
Proof.
  intros Hp. rewrite !calculate_values.
  apply sum_Permutation. change List.map with (@fmap list _). by rewrite Hp.
Qed.

Lemma calculate_anagram_witness :
  LetterSum.calculate "cab" = LetterSum.calculate "abc".
Proof.
  apply calculate_anagram.
  apply (bool_decide_unpack _). vm_compute. reflexivity.
Defined.

(** In the 8-bit model the letter sum is never negative, and it is 0
    exactly when the string has no character that [str.isalpha] accepts. *)
Lemma calculate_zero_iff (s : string) :
  0 <= LetterSum.calculate s /\
  (LetterSum.calculate s = 0 <->
   Forall (fun c => Py.isalpha c = false) (Py.chars s)).
Proof.
  split; [apply calculate_nonneg|].
  induction s as [|c s IH]; [done|].
  rewrite calculate_String. change (Py.chars (String c s)) with (c :: Py.chars s).
  rewrite Forall_cons.
  destruct (value_zero_iff c) as [H0 Hc]. pose proof (calculate_nonneg s).
  rewrite <- Hc, <- IH. lia.
Qed.

(** X4: a string of ASCII letters only has a letter sum between its length
    and 26 times its length. *)
Theorem calculate_ascii_bounds (s : string) :
  Forall (fun c => Py.is_ascii_letter c = true) (Py.chars s) ->
  Py.len s <= LetterSum.calculate s <= 26 * Py.len s.
Proof.
  unfold Py.len. induction s as [|c s IH]; [done|].
  change (Py.chars (String c s)) with (c :: Py.chars s).
  rewrite Forall_cons. intros [Hc Hs].
  rewrite calculate_String. apply ascii_letter_value_range in Hc.
  specialize (IH Hs). simpl String.length. lia.
Qed.

Lemma calculate_ascii_bounds_witness :
  Py.len "Excellent" <= LetterSum.calculate "Excellent"
    <= 26 * Py.len "Excellent".
Proof. apply calculate_ascii_bounds. repeat constructor. Defined.

(** ** What the build pass accumulates *)

Lemma grouped_by_append (key : string -> Z) (words : list string)
    (d : list (Z * list string)) (word : string) :
  grouped_by key words d ->
  grouped_by key (words ++ [word]) (odict.append (key word) word d).
Proof.
  intros (Hwf & Hgrp & Hall). unfold odict.append.
  split; [by apply wf_update|]. split.
  - intros k ws Hin.
    apply elem_update_wf in Hin; [|exact Hwf].
    destruct Hin as [[-> ->]|[Hne Hin]].
    + split; [|intros Hnil; by apply app_eq_nil in Hnil as [_ ?]].
      rewrite filter_app, filter_cons_True, filter_nil by done.
      f_equal. destruct (odict.get (key word) d) as [ws0|] eqn:Hg; simpl.
      * by apply get_Some_elem, Hgrp in Hg as [-> _].
      * symmetry. apply filter_none.
        intros w Hw Hk. apply Hall in Hw as [? Hw]. congruence.
    + rewrite filter_app, filter_cons_False, filter_nil, app_nil_r by done.
      by apply Hgrp.
  - intros w Hw. rewrite get_update. case_decide as Hk; [done|].
    apply elem_of_app in Hw as [Hw|Hw]; [by apply Hall|].
    by apply list_elem_of_singleton in Hw as ->.
Qed.

Lemma grouped_by_nil (key : string -> Z) : grouped_by key [] [].
Proof.
  split; [apply NoDup_nil_2|]. split.
  - intros k ws Hin. by apply elem_of_nil in Hin.
  - intros w Hw. by apply elem_of_nil in Hw.
Qed.

(** The items of a grouped dict, read off the words. *)
Lemma grouped_by_items (key : string -> Z) (words : list string)
    (d : list (Z * list string)) (k : Z) (ws : list string) :
  grouped_by key words d ->
  (k, ws) ∈ d <-> ws = filter (fun w => key w = k) words /\ ws <> [].
Proof.
  intros (Hwf & Hgrp & Hall). split; [apply Hgrp|].
  intros [-> Hne].
  destruct (filter (fun w => key w = k) words) as [|w ws] eqn:Hf; [done|].
  assert (w ∈ filter (fun w => key w = k) words) as Hw
    by (rewrite Hf; left).
  apply list_elem_of_filter in Hw as [<- Hw].
  destruct (Hall w Hw) as [ws' Hg]. apply get_Some_elem in Hg.
  destruct (Hgrp _ _ Hg) as [Heq _]. rewrite Hf in Heq. by rewrite <- Heq.
Qed.

Lemma build_snoc (lines : list string) (line : string) :
  build (lines ++ [line]) = _process_line (build lines) line.
Proof. apply process_lines_snoc. Qed.

Lemma build_grouped (lines : list string) :
  grouped_by LetterSum.calculate lines (most_common_words (build lines)).
Proof.
  induction lines as [|line lines IH] using rev_ind.
  - apply grouped_by_nil.
  - rewrite build_snoc. simpl. by apply grouped_by_append.
Qed.

(** X5: after the build pass the keys of [most_common_words] are pairwise
    distinct, and [(key, words)] is one of its items exactly when [words]
    is the list of all corpus words of letter sum [key], in corpus order
    and with repetitions, and there is at least one. *)
Theorem build_sum_buckets (lines : list string) :
  odict.wf (most_common_words (build lines)) /\
  forall (key : Z) (words : list string),
    (key, words) ∈ most_common_words (build lines) <->
    words = filter (fun w => LetterSum.calculate w = key) lines /\
    words <> [].
Proof.
  pose proof (build_grouped lines) as Hg. split; [apply Hg|].
  intros key words. by apply grouped_by_items.
Qed.

Lemma odd_count_after (self : t) (lines : list string) :
  odd_letter_count (process_lines self lines) =
    odd_letter_count self + list_len (List.filter odd_sum lines).
Proof.
  unfold list_len.
  induction lines as [|line lines IH] using rev_ind; [simpl; lia|].
  rewrite process_lines_snoc, List.filter_app, length_app, Nat2Z.inj_add.
  cbn [_process_line odd_letter_count List.filter]. rewrite IH.
  change (negb (LetterSum.calculate line mod 2 =? 0)) with (odd_sum line).
  destruct (odd_sum line); simpl length; lia.
Qed.

(** X6: each [_process_line] call on a word of odd letter sum adds one to
    [odd_letter_count], and the others leave it alone: after a sequence of
    calls the counter has grown by the number of odd-sum lines. *)
Theorem odd_letter_count_process_lines (self : t) (lines : list string) :
  odd_letter_count (process_lines self lines) =
    odd_letter_count self + list_len (List.filter odd_sum lines).
Proof. apply odd_count_after. Qed.

(** X7: after the build pass [MAXLEN] and [MAXSUM] bound the length and
    the letter sum of every corpus word, and each is reached by some
    corpus word, or is 0 when the corpus is empty. *)
Theorem build_maxima (lines : list string) :
  Forall (fun w => Py.len w <= MAXLEN (build lines) /\
                   LetterSum.calculate w <= MAXSUM (build lines)) lines /\
  ((lines = [] /\ MAXLEN (build lines) = 0 /\ MAXSUM (build lines) = 0) \/
   ((exists w, w ∈ lines /\ Py.len w = MAXLEN (build lines)) /\
    (exists w, w ∈ lines /\ LetterSum.calculate w = MAXSUM (build lines)))).
Proof.
  induction lines as [|line lines [Hall Hmax]] using rev_ind.
  - split; [constructor|by left].
  - rewrite build_snoc. simpl.
    pose proof (calculate_nonneg line) as Hs.
    assert (0 <= Py.len line) as Hl by (unfold Py.len; lia).
    split.
    + apply Forall_app. split.
      * eapply Forall_impl; [exact Hall|]. simpl. intros w [? ?]. lia.
      * apply Forall_singleton. lia.
    + right. destruct Hmax as [(-> & -> & ->)|[(wl & Hwl & Hl') (ws & Hws & Hs')]].
      * split; exists line; (split; [set_solver|lia]).
      * split.
        -- destruct (Z.max_spec (MAXLEN (build lines)) (Py.len line))
             as [[_ ->]|[_ ->]].
           ++ exists line. split; [set_solver|done].
           ++ exists wl. split; [set_solver|done].
        -- destruct (Z.max_spec (MAXSUM (build lines))
                       (LetterSum.calculate line)) as [[_ ->]|[_ ->]].
           ++ exists line. split; [set_solver|done].
           ++ exists ws. split; [set_solver|done].
Qed.

Lemma stdout_process_lines_aux (self : t) (lines : list string) :
  stdout (process_lines self lines) =
    stdout self ++
    List.filter (fun w => LetterSum.calculate w =? 319) lines.
Proof.
  induction lines as [|line lines IH] using rev_ind;
    [simpl; by rewrite app_nil_r|].
  rewrite process_lines_snoc, List.filter_app. simpl. rewrite IH.
  destruct (LetterSum.calculate line =? 319);
    [by rewrite app_assoc|by rewrite !app_nil_r].
Qed.

(** X8: the build pass prints exactly the lines of letter sum 319, in
    corpus order, and nothing else. *)
Theorem stdout_process_lines (self : t) (lines : list string) :
  stdout (process_lines self lines) =
    stdout self ++
    List.filter (fun w => LetterSum.calculate w =? 319) lines.
Proof. apply stdout_process_lines_aux. Qed.

Lemma MAXLEN_process_lines (self : t) (lines : list string) :
  MAXLEN (process_lines self lines) =
    fold_left Z.max (List.map Py.len lines) (MAXLEN self).
Proof.
  revert self. induction lines as [|line lines IH]; intros self; [done|].
  simpl. by rewrite IH.
Qed.

Lemma MAXSUM_process_lines (self : t) (lines : list string) :
  MAXSUM (process_lines self lines) =
    fold_left Z.max (List.map LetterSum.calculate lines) (MAXSUM self).
Proof.
  revert self. induction lines as [|line lines IH]; intros self; [done|].
  simpl. by rewrite IH.
Qed.

Lemma fold_max_ge (xs : list Z) (a : Z) :
  a <= fold_left Z.max xs a /\ Forall (fun x => x <= fold_left Z.max xs a) xs.
Proof.
  revert a. induction xs as [|x xs IH]; intros a; simpl; [by split|].
  destruct (IH (Z.max a x)) as [H1 H2]. split; [lia|].
  constructor; [lia|done].
Qed.

Lemma fold_max_absorb (xs : list Z) (a : Z) :
  Forall (fun x => x <= a) xs -> fold_left Z.max xs a = a.
Proof.
  revert a. induction xs as [|x xs IH]; intros a Hxs; simpl; [done|].
  apply Forall_cons in Hxs as [Hx Hxs].
  rewrite Z.max_l by done. by apply IH.
Qed.

(** X9: reading the same corpus a second time into a built analyzer
    leaves [words_length_and_sum], [MAXLEN] and [MAXSUM] as they are, and
    doubles [odd_letter_count]. *)
Theorem build_twice (lines : list string) :
  let once := build lines in
  let twice := process_lines once lines in
  words_length_and_sum twice = words_length_and_sum once /\
  MAXLEN twice = MAXLEN once /\
  MAXSUM twice = MAXSUM once /\
  odd_letter_count twice = 2 * odd_letter_count once.
Proof.
  simpl. split; [|split; [|split]].
  - apply map_eq. intros [l s]. rewrite index_after_lines.
    unfold build. rewrite index_after_lines.
    by destruct (List.find (matches l s) (rev lines)).
  - rewrite MAXLEN_process_lines. apply fold_max_absorb.
    unfold build. rewrite MAXLEN_process_lines.
    apply (fold_max_ge (List.map Py.len lines)).
  - rewrite MAXSUM_process_lines. apply fold_max_absorb.
    unfold build. rewrite MAXSUM_process_lines.
    apply (fold_max_ge (List.map LetterSum.calculate lines)).
  - unfold build.
    rewrite !(odd_count_after _ lines). simpl. lia.
Qed.

(** ** Reading the file *)

Lemma string_of_chars (s : string) : string_of_list_ascii (Py.chars s) = s.
Proof. apply string_of_list_ascii_of_string. Qed.

Lemma lstrip_lf_free (l : list ascii) :
  Py.LF ∉ l -> Py.lstrip_lf l = l.
Proof.
  destruct l as [|c l]; [done|]. intros Hc. simpl.
  destruct (Ascii.eqb c Py.LF) eqn:Heq; [|done].
  apply Ascii.eqb_eq in Heq as ->. destruct Hc. left.
Qed.

Lemma strip_lf_free (w : string) :
  Py.LF ∉ Py.chars w -> Py.strip_lf w = w.
Proof.
  intros Hw. unfold Py.strip_lf.
  rewrite (lstrip_lf_free _ Hw), lstrip_lf_free, rev_involutive.
  - apply string_of_chars.
  - intros Hin. by apply list_elem_of_In, in_rev, list_elem_of_In in Hin.
Qed.

Lemma strip_lf_newline (w : string) :
  Py.LF ∉ Py.chars w -> Py.strip_lf (String.append w nl) = w.
Proof.
  intros Hw. rewrite <- (string_of_chars w) at 2.
  unfold Py.strip_lf. f_equal. rewrite chars_append.
  change (Py.chars nl) with [Py.LF].
  assert (Py.LF ∉ rev (Py.chars w)) as Hrev.
  { intros Hin. by apply list_elem_of_In, in_rev, list_elem_of_In in Hin. }
  destruct (Py.chars w) as [|c l] eqn:Hc.
  - reflexivity.
  - assert (Ascii.eqb c Py.LF = false) as Hne.
    { apply Ascii.eqb_neq. intros ->. destruct Hw. left. }
    change (Py.lstrip_lf ((c :: l) ++ [Py.LF]))
      with (if Ascii.eqb c Py.LF then Py.lstrip_lf (l ++ [Py.LF])
            else (c :: l) ++ [Py.LF]).
    rewrite Hne, rev_app_distr.
    change (Py.lstrip_lf (rev [Py.LF] ++ rev (c :: l)))
      with (if Ascii.eqb Py.LF Py.LF then Py.lstrip_lf (rev (c :: l))
            else Py.LF :: rev (c :: l)).
    rewrite Ascii.eqb_refl, (lstrip_lf_free _ Hrev). apply rev_involutive.
Qed.

(** X10: when each line the file yields is a word without line feed,
    followed or not by one line feed, [process_file] does to the analyzer
    what [_process_line] does on the words in order; a line that is only a
    line feed is processed as the empty word. *)
Theorem process_file_words (self : t) (file words : list string) :
  Forall2 (fun raw w => (Py.LF ∉ Py.chars w) /\
                        (raw = w \/ raw = String.append w nl)) file words ->
  process_file self file = process_lines self words.
Proof.
  intros H. unfold process_file. f_equal.
  induction H as [|raw w file words [Hw Hraw] _ IH]; [done|].
  simpl. rewrite IH. f_equal.
  destruct Hraw as [->| ->];
    [by apply strip_lf_free|by apply strip_lf_newline].
Qed.

Lemma process_file_words_witness :
  process_file (init "enable1.txt")
    [String.append "ab" nl; nl; "cab"] =
  process_lines (init "enable1.txt") ["ab"; ""; "cab"].
Proof.
  apply process_file_words.
  assert (forall w : string,
            bool_decide (Py.LF ∉ Py.chars w) = true -> Py.LF ∉ Py.chars w)
    as Hfree by (intros w; apply bool_decide_eq_true_1).
  constructor; [split; [by apply Hfree|by right]|].
  constructor; [split; [by apply Hfree|by right]|].
  constructor; [split; [by apply Hfree|by left]|].
  constructor.
Defined.

(** ** The most common letter sum *)

Lemma max_from_spec {A : Type} (key : A -> Z) (best : A) (l : list A) :
  key best <= key (max_from key best l) /\
  Forall (fun x => key x <= key (max_from key best l)) l /\
  (max_from key best l = best \/
   exists l1 l2, l = l1 ++ max_from key best l :: l2 /\
                 key best < key (max_from key best l) /\
                 Forall (fun y => key y < key (max_from key best l)) l1).
Proof.
  revert best. induction l as [|x l IH]; intros best; cbn [max_from].
  - split; [lia|]. split; [constructor|by left].
  - destruct (IH (if key best <? key x then x else best))
      as (Hb & Hl & Hpos).
    destruct (Z.ltb_spec (key best) (key x)) as [Hlt|Hge].
    + split; [lia|]. split; [constructor; [lia|done]|]. right.
      destruct Hpos as [Heq|(l1 & l2 & Heq & Hlt' & Hl1)].
      * exists [], l. rewrite Heq. split; [done|]. split; [done|constructor].
      * exists (x :: l1), l2. split; [by rewrite Heq at 1|]. split; [lia|].
        constructor; [lia|done].
    + split; [lia|]. split; [constructor; [lia|done]|].
      destruct Hpos as [Heq|(l1 & l2 & Heq & Hlt' & Hl1)]; [by left|].
      right. exists (x :: l1), l2. split; [by rewrite Heq at 1|].
      split; [lia|]. constructor; [lia|done].
Qed.

(** [max(l, key=...)]: ValueError exactly on the empty list; otherwise the
    element returned has the greatest key, and every element before it has
    a smaller one. *)
Lemma py_max_spec {A : Type} (key : A -> Z) (l : list A) :
  match py_max key l with
  | Py.Ok x =>
      exists before after,
        l = before ++ x :: after /\
        Forall (fun y => key y < key x) before /\
        Forall (fun y => key y <= key x) after
  | Py.Raise e => e = Py.ValueError /\ l = []
  end.
Proof.
  destruct l as [|x0 l]; simpl; [done|].
  destruct (max_from_spec key x0 l) as (Hb & Hl & Hpos).
  destruct Hpos as [Heq|(l1 & l2 & Heq & Hlt & Hl1)].
  - exists [], l. rewrite Heq in *. split; [done|]. split; [constructor|done].
  - exists (x0 :: l1), l2. split; [by rewrite Heq at 1|].
    split; [constructor; [lia|done]|].
    rewrite Forall_forall in Hl |- *. intros y Hy. apply Hl.
    rewrite Heq. set_solver.
Qed.

(** X11: [_find_most_common_word_sum] raises ValueError exactly when
    [most_common_words] is empty; otherwise it returns an item of the dict
    whose bucket is at least as long as every other bucket, and the first
    such item in insertion order (every earlier bucket is shorter). *)
Theorem find_most_common_word_sum_spec (self : t) :
  match _find_most_common_word_sum self with
  | Py.Ok item =>
      exists before after,
        most_common_words self = before ++ item :: after /\
        Forall (fun x => list_len (snd x) < list_len (snd item)) before /\
        Forall (fun x => list_len (snd x) <= list_len (snd item)) after
  | Py.Raise e => e = Py.ValueError /\ most_common_words self = []
  end.
Proof. apply (py_max_spec (fun x => list_len (snd x))). Qed.

(** X12: on a built corpus [_find_most_common_word_sum] raises ValueError
    exactly when the corpus is empty; otherwise it returns a letter sum
    together with the list of all corpus words of that sum, and no letter
    sum is shared by more corpus words. *)
Theorem build_most_common (lines : list string) :
  match _find_most_common_word_sum (build lines) with
  | Py.Ok (key, words) =>
      words = filter (fun w => LetterSum.calculate w = key) lines /\
      words <> [] /\
      forall s : Z,
        list_len (filter (fun w => LetterSum.calculate w = s) lines)
          <= list_len words
  | Py.Raise e => e = Py.ValueError /\ lines = []
  end.
Proof.
  pose proof (build_grouped lines) as Hg.
  pose proof (py_max_spec (fun x => list_len (snd x))
                (most_common_words (build lines))) as Hmax.
  unfold _find_most_common_word_sum.
  destruct (py_max _ _) as [[key words]|e].
  - destruct Hmax as (before & after & Heq & Hb & Ha). simpl in *.
    assert ((key, words) ∈ most_common_words (build lines)) as Hin
      by (rewrite Heq; set_solver).
    apply (grouped_by_items _ _ _ _ _ Hg) in Hin as [Hw Hne].
    split; [done|]. split; [done|]. intros s.
    destruct (filter (fun w => LetterSum.calculate w = s) lines)
      as [|w ws] eqn:Hf; [unfold list_len; simpl; lia|].
    assert ((s, w :: ws) ∈ most_common_words (build lines)) as Hs
      by (apply (grouped_by_items _ _ _ _ _ Hg); by rewrite Hf).
    rewrite Heq in Hs. rewrite Forall_forall in Hb, Ha.
    apply elem_of_app in Hs as [Hs|Hs]; [specialize (Hb _ Hs); simpl in Hb; lia|].
    apply elem_of_cons in Hs as [[= <- <-]|Hs]; [lia|].
    specialize (Ha _ Hs). simpl in Ha. lia.
  - destruct Hmax as [-> Hnil]. split; [done|].
    destruct lines as [|w lines]; [done|].
    destruct Hg as (_ & _ & Hall).
    destruct (Hall w) as [ws Hws]; [left|]. rewrite Hnil in Hws. done.
Qed.

(** ** The pair finders on a built corpus *)

Lemma ordered_pair_lookup {A : Type} (a b : A) (l : list A) :
  ordered_pair a b l <->
  exists i j : nat, (i < j)%nat /\ l !! i = Some a /\ l !! j = Some b.
Proof.
  induction l as [|x l IH]; simpl.
  - split; [done|]. by intros (i & j & _ & Hi & _).
  - rewrite IH. split.
    + intros [[-> Hb]|(i & j & Hij & Hi & Hj)].
      * apply list_elem_of_lookup in Hb as [k Hk].
        exists 0%nat, (S k). split; [lia|done].
      * exists (S i), (S j). split; [lia|done].
    + intros (i & j & Hij & Hi & Hj).
      destruct j as [|j]; [lia|]. destruct i as [|i]; simpl in *.
      * injection Hi as ->. left. split; [done|].
        by eapply list_elem_of_lookup_2.
      * right. exists i, j. split; [lia|done].
Qed.

Lemma ordered_pair_filter (P : string -> Prop) `{forall w, Decision (P w)}
    (a b : string) (l : list string) :
  ordered_pair a b (filter P l) <-> P a /\ P b /\ ordered_pair a b l.
Proof.
  induction l as [|x l IH]; simpl; [by split; [|intros (_ & _ & ?)]|].
  destruct (decide (P x)) as [Hx|Hx].
  - rewrite filter_cons_True by done. simpl.
    rewrite IH, list_elem_of_filter. split.
    + intros [(-> & ? & ?)|(? & ? & ?)]; eauto 6.
    + intros (? & ? & [[-> ?]|?]); eauto 6.
  - rewrite filter_cons_False by done. rewrite IH. split.
    + intros (? & ? & ?). eauto.
    + intros (Ha & ? & [[-> ?]|?]); [done|eauto].
Qed.

Lemma pairs_process_lines (self : t) (lines : list string) :
  word_pairs_length_diff (process_lines self lines)
    = word_pairs_length_diff self /\
  word_pairs_no_common (process_lines self lines)
    = word_pairs_no_common self.
Proof.
  revert self. induction lines as [|line lines IH]; intros self; [done|].
  simpl. by destruct (IH (_process_line self line)) as [-> ->].
Qed.

Lemma elem_build_length_diff (lines : list string) (length_diff : Z)
    (w1 w2 : string) :
  (w1, w2) ∈ word_pairs_length_diff
               (_find_length_diff_pairs (build lines) length_diff) <->
  w1 ∈ lines /\ w2 ∈ lines /\
  LetterSum.calculate w1 = LetterSum.calculate w2 /\
  Py.len w2 - Py.len w1 = length_diff.
Proof.
  pose proof (build_grouped lines) as Hg. simpl.
  unfold build at 1. rewrite (proj1 (pairs_process_lines _ _)). simpl.
  rewrite list_elem_of_In, in_flat_map. split.
  - intros ([key words] & Hin & Hp).
    apply list_elem_of_In, (grouped_by_items _ _ _ _ _ Hg) in Hin as [-> _].
    apply list_elem_of_In, elem_length_diff_pairs_of_bucket in Hp
      as (H1 & H2 & Hlen). simpl in *.
    apply list_elem_of_filter in H1 as [? ?].
    apply list_elem_of_filter in H2 as [? ?].
    repeat split; [done|done|congruence|done].
  - intros (H1 & H2 & Hsum & Hlen).
    exists (LetterSum.calculate w1,
            filter (fun w => LetterSum.calculate w = LetterSum.calculate w1)
              lines).
    assert (w1 ∈ filter (fun w => LetterSum.calculate w
                                  = LetterSum.calculate w1) lines) as Hw1
      by (by apply list_elem_of_filter).
    split.
    + apply list_elem_of_In, (grouped_by_items _ _ _ _ _ Hg).
      split; [done|]. intros Hnil. rewrite Hnil in Hw1.
      by apply elem_of_nil in Hw1.
    + apply list_elem_of_In, elem_length_diff_pairs_of_bucket. simpl.
      split; [done|]. split; [by apply list_elem_of_filter|done].
Qed.

(** X13: on a built corpus [_find_length_diff_pairs] finds the pair
    [(w1, w2)] exactly when both are corpus words, their letter sums are
    equal and [len(w2) - len(w1)] is the requested difference. *)
Theorem build_length_diff_pairs (lines : list string) (length_diff : Z)
    (w1 w2 : string) :
  (w1, w2) ∈ word_pairs_length_diff
               (_find_length_diff_pairs (build lines) length_diff) <->
  w1 ∈ lines /\ w2 ∈ lines /\
  LetterSum.calculate w1 = LetterSum.calculate w2 /\
  Py.len w2 - Py.len w1 = length_diff.
Proof. apply elem_build_length_diff. Qed.

(** X20: with a length difference of 0, [_find_length_diff_pairs] pairs
    every corpus word with itself. *)
Theorem length_diff_zero_pairs_word_with_itself (lines : list string)
    (w : string) :
  w ∈ lines ->
  (w, w) ∈ word_pairs_length_diff (_find_length_diff_pairs (build lines) 0).
Proof.
  intros Hw. apply elem_build_length_diff. repeat split; [done|done|lia].
Qed.

Lemma length_diff_zero_pairs_word_with_itself_witness :
  ("eavesdropper", "eavesdropper")
    ∈ word_pairs_length_diff (_find_length_diff_pairs (build four_words) 0).
Proof.
  apply length_diff_zero_pairs_word_with_itself.
  apply (bool_decide_eq_true_1 _). vm_compute. reflexivity.
Defined.

(** X14: on a built corpus [_find_no_common_pairs] never raises, and it
    finds the pair [(w1, w2)] exactly when [w1] stands before [w2] in the
    corpus, their letter sums are equal and strictly greater than
    [min_sum], and they have no character in common. *)
Theorem build_no_common_pairs (lines : list string) (min_sum : Z) :
  exists found : list (string * string),
    _find_no_common_pairs (build lines) min_sum =
      Py.Ok (with_no_common (build lines) found) /\
    forall w1 w2 : string,
      (w1, w2) ∈ found <->
      exists i j : nat,
        (i < j)%nat /\ lines !! i = Some w1 /\ lines !! j = Some w2 /\
        LetterSum.calculate w1 = LetterSum.calculate w2 /\
        min_sum < LetterSum.calculate w1 /\
        (forall c : ascii, c ∈ Py.chars w1 -> c ∉ Py.chars w2).
Proof.
  pose proof (build_grouped lines) as Hg.
  exists (flat_map (bucket_pairs min_sum) (most_common_words (build lines))).
  split.
  - unfold _find_no_common_pairs.
    rewrite (for_each_collect (bucket_pairs min_sum));
      [|intros item acc _; apply no_common_pairs_of_bucket_ok].
    unfold build at 2. by rewrite (proj2 (pairs_process_lines _ _)).
  - intros w1 w2. rewrite list_elem_of_In, in_flat_map. split.
    + intros ([key words] & Hin & Hp).
      apply list_elem_of_In, (grouped_by_items _ _ _ _ _ Hg) in Hin as [-> _].
      apply list_elem_of_In, elem_bucket_pairs in Hp
        as (Hk & _ & i & j & Hij & Hi & Hj & Hd). simpl in *.
      assert (ordered_pair w1 w2
                (filter (fun w => LetterSum.calculate w = key) lines)) as Ho
        by (apply ordered_pair_lookup; eauto).
      apply ordered_pair_filter in Ho as (<- & Hs2 & Ho).
      apply ordered_pair_lookup in Ho as (i' & j' & ? & ? & ?).
      exists i', j'. repeat (split; [done|]).
      by apply isdisjoint_spec.
    + intros (i & j & Hij & Hi & Hj & Hsum & Hk & Hd).
      set (key := LetterSum.calculate w1) in *.
      set (words := filter (fun w => LetterSum.calculate w = key) lines).
      assert (ordered_pair w1 w2 words) as Ho.
      { apply ordered_pair_filter. repeat split; [done|].
        apply ordered_pair_lookup. eauto. }
      apply ordered_pair_lookup in Ho as (i' & j' & Hij' & Hi' & Hj').
      exists (key, words). split.
      * apply list_elem_of_In, (grouped_by_items _ _ _ _ _ Hg).
        split; [done|]. intros Hnil. by rewrite Hnil in Hi'.
      * apply list_elem_of_In, elem_bucket_pairs. simpl.
        split; [done|]. split; [apply lookup_lt_Some in Hj'; lia|].
        exists i', j'. repeat (split; [done|]). by apply isdisjoint_spec.
Qed.

Lemma flat_map_all_nil {A B : Type} (f : A -> list B) (l : list A) :
  (forall x, x ∈ l -> f x = []) -> flat_map f l = [].
Proof.
  induction l as [|x l IH]; intros Hl; simpl; [done|].
  rewrite Hl by left. apply IH. intros y Hy. apply Hl. by right.
Qed.

Lemma build_sum_le_MAXSUM (lines : list string) (w : string) :
  w ∈ lines -> LetterSum.calculate w <= MAXSUM (build lines).
Proof.
  intros Hw. unfold build. rewrite MAXSUM_process_lines.
  destruct (fold_max_ge (List.map LetterSum.calculate lines)
              (MAXSUM (init "enable1.txt"))) as [_ Hall].
  rewrite Forall_forall in Hall. apply Hall.
  apply list_elem_of_In, in_map, list_elem_of_In, Hw.
Qed.

Lemma build_len_le_MAXLEN (lines : list string) (w : string) :
  w ∈ lines -> Py.len w <= MAXLEN (build lines).
Proof.
  intros Hw. unfold build. rewrite MAXLEN_process_lines.
  destruct (fold_max_ge (List.map Py.len lines)
              (MAXLEN (init "enable1.txt"))) as [_ Hall].
  rewrite Forall_forall in Hall. apply Hall.
  apply list_elem_of_In, in_map, list_elem_of_In, Hw.
Qed.

(** X15: on a built corpus whose greatest letter sum does not exceed
    [min_sum], [_find_no_common_pairs] finds no pair at all. *)
Theorem no_common_pairs_above_maximum (lines : list string) (min_sum : Z) :
  MAXSUM (build lines) <= min_sum ->
  _find_no_common_pairs (build lines) min_sum =
    Py.Ok (with_no_common (build lines) []).
Proof.
  intros Hmax. pose proof (build_grouped lines) as Hg.
  unfold _find_no_common_pairs.
  rewrite (for_each_collect (bucket_pairs min_sum));
    [|intros item acc _; apply no_common_pairs_of_bucket_ok].
  unfold build at 2. rewrite (proj2 (pairs_process_lines _ _)).
  rewrite flat_map_all_nil; [done|].
  intros [key words] Hin.
  apply (grouped_by_items _ _ _ _ _ Hg) in Hin as [-> Hne].
  unfold bucket_pairs. cbn [fst snd].
  destruct (filter (fun w => LetterSum.calculate w = key) lines)
    as [|w ws] eqn:Hf; [done|].
  assert (w ∈ filter (fun w => LetterSum.calculate w = key) lines) as Hw
    by (rewrite Hf; left).
  apply list_elem_of_filter in Hw as [<- Hw].
  apply build_sum_le_MAXSUM in Hw.
  destruct (Z.ltb_spec min_sum (LetterSum.calculate w)); [lia|done].
Qed.

Lemma no_common_pairs_above_maximum_witness :
  _find_no_common_pairs (build four_words) 158 =
    Py.Ok (with_no_common (build four_words) []).
Proof. apply no_common_pairs_above_maximum. vm_compute. discriminate. Defined.

(** X16: the pairs [_find_length_diff_pairs] finds for a difference and
    for the opposite difference are mirror images: [(w1, w2)] is found for
    [length_diff] exactly when [(w2, w1)] is found for [- length_diff]. *)
Theorem length_diff_pairs_mirror (self : t) (length_diff : Z)
    (w1 w2 : string) :
  word_pairs_length_diff self = [] ->
  (w1, w2) ∈ word_pairs_length_diff
               (_find_length_diff_pairs self length_diff) <->
  (w2, w1) ∈ word_pairs_length_diff
               (_find_length_diff_pairs self (- length_diff)).
Proof.
  intros Hnil. simpl. rewrite Hnil. simpl.
  rewrite !list_elem_of_In, !in_flat_map.
  split; intros (item & Hin & Hp); exists item; (split; [done|]);
    apply list_elem_of_In, elem_length_diff_pairs_of_bucket in Hp
      as (H1 & H2 & Hlen);
    apply list_elem_of_In, elem_length_diff_pairs_of_bucket;
    (split; [done|]); (split; [done|lia]).
Qed.

Lemma length_diff_pairs_mirror_witness :
  let self := build ["zyzzyva"; "biodegradabilities"] in
  ("zyzzyva", "biodegradabilities")
    ∈ word_pairs_length_diff (_find_length_diff_pairs self 11) <->
  ("biodegradabilities", "zyzzyva")
    ∈ word_pairs_length_diff (_find_length_diff_pairs self (- 11)).
Proof.
  apply (length_diff_pairs_mirror
           (build ["zyzzyva"; "biodegradabilities"]) 11).
  reflexivity.
Defined.

Lemma for_each_ext {A S : Type} (xs : list A)
    (body1 body2 : S -> A -> Py.result S) (s : S) :
  (forall s x, body1 s x = body2 s x) ->
  for_each xs body1 s = for_each xs body2 s.
Proof.
  intros Hb. revert s. induction xs as [|x xs IH]; intros s; [done|].
  rewrite !for_each_cons, Hb. destruct (body2 s x); simpl; [apply IH|done].
Qed.

Lemma first_word_ext (a b : t) (length : Z) (sums : list Z) :
  words_length_and_sum a = words_length_and_sum b ->
  first_word a length sums = first_word b length sums.
Proof.
  intros Hw. induction sums as [|s sums IH]; simpl; [done|].
  unfold get_word. by rewrite Hw, IH.
Qed.

(** The chain builder reads the index and the two maxima only. *)
Lemma find_longest_unique_ext (a b : t) :
  words_length_and_sum a = words_length_and_sum b ->
  MAXLEN a = MAXLEN b -> MAXSUM a = MAXSUM b ->
  find_longest_unique a = find_longest_unique b.
Proof.
  intros Hw Hl Hs. unfold find_longest_unique. rewrite Hl.
  rewrite (for_each_ext _ (length_step a) (length_step b)); [done|].
  intros cl L. unfold length_step.
  rewrite (for_each_ext _ (extend_chain a L) (extend_chain b L)).
  - by rewrite Hs, (first_word_ext a b).
  - intros [v tl] c. unfold extend_chain.
    destruct (Py.getlast c); simpl; [|done].
    by rewrite Hs, (first_word_ext a b).
Qed.

(** X17: [analyze_word_pais] never raises; it only extends the two pair
    lists and leaves every other attribute as it was, so the results of
    [find_longest_unique] and [_find_most_common_word_sum] are the same
    before and after it. *)
Theorem analyze_word_pais_frame (self : t) (length_diff : Z) :
  exists (self' : t) (found_diff found_disjoint : list (string * string)),
    analyze_word_pais self length_diff = Py.Ok self' /\
    word_pairs_length_diff self' = word_pairs_length_diff self ++ found_diff /\
    word_pairs_no_common self'
      = word_pairs_no_common self ++ found_disjoint /\
    filename self' = filename self /\
    odd_letter_count self' = odd_letter_count self /\
    most_common_words self' = most_common_words self /\
    words_length_and_sum self' = words_length_and_sum self /\
    MAXLEN self' = MAXLEN self /\ MAXSUM self' = MAXSUM self /\
    stdout self' = stdout self /\
    find_longest_unique self' = find_longest_unique self /\
    _find_most_common_word_sum self' = _find_most_common_word_sum self.
Proof.
  unfold analyze_word_pais, _find_no_common_pairs.
  rewrite (for_each_collect (bucket_pairs 188));
    [|intros item acc _; apply no_common_pairs_of_bucket_ok].
  eexists _,
    (flat_map (length_diff_pairs_of_bucket length_diff)
       (most_common_words self)),
    (flat_map (bucket_pairs 188) (most_common_words self)).
  split; [reflexivity|]. repeat split; try reflexivity.
  by apply find_longest_unique_ext.
Qed.

(** ** When the chain builder fails, and how long a chain can be *)

Lemma first_word_is_Some (self : t) (length : Z) (sums : list Z) (s : Z)
    (w : string) :
  s ∈ sums ->
  words_length_and_sum self !! (length, s) = Some w ->
  Py.truthy w = true ->
  is_Some (first_word self length sums).
Proof.
  intros Hs Hw Ht. induction sums as [|s0 sums IH]; [by apply elem_of_nil in Hs|].
  simpl. destruct (Py.truthy (get_word self length s0)) eqn:Ht0; [done|].
  apply IH. apply elem_of_cons in Hs as [->|Hs]; [|done].
  unfold get_word in Ht0. rewrite Hw in Ht0. simpl in Ht0. congruence.
Qed.

Lemma first_word_None (self : t) (length : Z) (sums : list Z) :
  (forall s, s ∈ sums -> words_length_and_sum self !! (length, s) = None) ->
  first_word self length sums = None.
Proof.
  induction sums as [|s0 sums IH]; intros Hs; simpl; [done|].
  unfold get_word. rewrite (Hs s0) by left. simpl.
  apply IH. intros s Hin. apply Hs. by right.
Qed.

Lemma range_elem (a b s : Z) : a <= s < b -> s ∈ Py.range a b.
Proof.
  intros Hs. unfold Py.range. apply list_elem_of_In, in_map_iff.
  exists (Z.to_nat (s - a)). split; [lia|]. apply in_seq. lia.
Qed.

Lemma extend_chain_visited (self : t) (length : Z)
    (st st' : list (list string) * list (list string)) (chain : list string) :
  extend_chain self length st chain = Py.Ok st' -> fst st' <> [].
Proof.
  destruct st as [v tl]. unfold extend_chain.
  destruct (Py.getlast chain); simpl; [|done].
  destruct (first_word self length _) as [[s w]|];
    [destruct (s =? _)|]; intros [= <-]; simpl; by destruct v.
Qed.

Lemma for_each_extend_nonempty (self : t) (length : Z)
    (chainlist : list (list string))
    (st st' : list (list string) * list (list string)) :
  for_each chainlist (extend_chain self length) st = Py.Ok st' ->
  chainlist <> [] \/ fst st <> [] -> fst st' <> [].
Proof.
  revert st. induction chainlist as [|c cl IH]; intros st.
  - simpl. intros [= <-] [?|?]; done.
  - rewrite for_each_cons.
    destruct (extend_chain self length st c) as [st1|] eqn:Hst1; [|done].
    simpl. intros Hfor _. apply (IH st1 Hfor). right.
    eapply extend_chain_visited, Hst1.
Qed.

Lemma length_step_nonempty (self : t) (chainlist cl' : list (list string))
    (length : Z) :
  length_step self chainlist length = Py.Ok cl' ->
  chainlist <> [] \/
    is_Some (first_word self length (Py.range 1 (MAXSUM self))) ->
  cl' <> [].
Proof.
  unfold length_step.
  destruct (for_each chainlist _ _) as [st|] eqn:Hfor; [|done]. simpl.
  intros Hcl' Hor.
  destruct (first_word self length _) as [[s w]|];
    injection Hcl' as <-.
  - intros Hnil. by apply app_eq_nil in Hnil as [_ ?].
  - destruct Hor as [Hne|[? ?]]; [|done].
    intros Hnil. apply app_eq_nil in Hnil as [Hnil _].
    eapply for_each_extend_nonempty; [exact Hfor|by left|done].
Qed.

Lemma countdown_nonempty (self : t) (n : nat)
    (chainlist cl' : list (list string)) :
  for_each (Py.countdown n) (length_step self) chainlist = Py.Ok cl' ->
  chainlist <> [] \/
    (exists L, 1 <= L <= Z.of_nat n /\
       is_Some (first_word self L (Py.range 1 (MAXSUM self)))) ->
  cl' <> [].
Proof.
  revert chainlist. induction n as [|n IH]; intros chainlist.
  - simpl. intros [= <-] [?|(L & ? & _)]; [done|lia].
  - change (Py.countdown (S n)) with (Z.of_nat (S n) :: Py.countdown n).
    rewrite for_each_cons.
    destruct (length_step self chainlist (Z.of_nat (S n))) as [cl1|] eqn:H1;
      [|done].
    simpl. intros Hfor Hor. apply (IH cl1 Hfor).
    destruct (decide (cl1 = [])) as [->|Hne]; [|by left]. right.
    destruct Hor as [Hne|(L & HL & Hsome)].
    + by destruct (length_step_nonempty _ _ _ _ H1 (or_introl Hne)).
    + destruct (decide (L = Z.of_nat (S n))) as [->|HLn].
      * by destruct (length_step_nonempty _ _ _ _ H1 (or_intror Hsome)).
      * exists L. split; [lia|done].
Qed.

Lemma countdown_empty (self : t) (n : nat) :
  (forall L, first_word self L (Py.range 1 (MAXSUM self)) = None) ->
  for_each (Py.countdown n) (length_step self) [] = Py.Ok [].
Proof.
  intros Hnone. induction n as [|n IH]; [done|].
  change (Py.countdown (S n)) with (Z.of_nat (S n) :: Py.countdown n).
  rewrite for_each_cons. unfold length_step at 1. simpl.
  by rewrite Hnone.
Qed.

Lemma build_index_Some (lines : list string) (w : string) :
  w ∈ lines ->
  exists w', words_length_and_sum (build lines)
               !! (Py.len w, LetterSum.calculate w) = Some w'.
Proof.
  intros Hw. unfold build. rewrite index_after_lines.
  destruct (List.find _ (rev lines)) as [w'|] eqn:Hf; [by exists w'|].
  eapply find_none in Hf; [|apply in_rev; rewrite rev_involutive;
                            by apply list_elem_of_In].
  assert (matches (Py.len w) (LetterSum.calculate w) w = true)
    by (by apply matches_spec).
  congruence.
Qed.

Lemma truthy_len (w : string) : 1 <= Py.len w -> Py.truthy w = true.
Proof. destruct w; [unfold Py.len; simpl; lia|done]. Qed.

Lemma find_longest_unique_raises_iff_aux (lines : list string) :
  find_longest_unique (build lines) = Py.Raise Py.ValueError <->
  Forall (fun w => LetterSum.calculate w = 0 \/
                   LetterSum.calculate w = MAXSUM (build lines)) lines.
Proof.
  pose proof (consistent_build lines) as [Hidx _].
  split.
  - intros Hraise.
    destruct (decide (Forall (fun w => LetterSum.calculate w = 0 \/
                LetterSum.calculate w = MAXSUM (build lines)) lines))
      as [|Hnot]; [done|exfalso].
    apply not_Forall_Exists in Hnot; [|apply _].
    apply Exists_exists in Hnot as (w & Hw & Hsum). simpl in Hsum.
    pose proof (calculate_nonneg w).
    pose proof (build_sum_le_MAXSUM lines w Hw).
    pose proof (build_len_le_MAXLEN lines w Hw).
    assert (1 <= Py.len w) as Hlen.
    { destruct w; [|unfold Py.len; simpl; lia].
      destruct Hsum. by left. }
    destruct (build_index_Some lines w Hw) as [w' Hw'].
    destruct (Hidx _ _ _ Hw') as [Hlen' _].
    unfold find_longest_unique, Py.range_down in Hraise.
    destruct (countdown_inv (build lines) lines Hidx
                (build_index_corpus lines)
                (Z.to_nat (MAXLEN (build lines))) []) as (cl & Hcl & _);
      [constructor|].
    rewrite Hcl in Hraise. simpl in Hraise.
    assert (cl <> []) as Hne.
    { eapply countdown_nonempty; [exact Hcl|]. right.
      exists (Py.len w). split; [lia|].
      eapply first_word_is_Some; [|exact Hw'|apply truthy_len; lia].
      apply range_elem. lia. }
    by destruct cl.
  - intros Hall. unfold find_longest_unique, Py.range_down.
    rewrite countdown_empty; [done|].
    intros L. apply first_word_None. intros s Hs.
    apply elem_range in Hs.
    destruct (words_length_and_sum (build lines) !! (L, s)) as [w|] eqn:Hw;
      [|done].
    destruct (Hidx _ _ _ Hw) as [_ Hsum].
    apply build_index_corpus in Hw. rewrite Forall_forall in Hall.
    destruct (Hall w Hw); lia.
Qed.

(** X18: on a built corpus [find_longest_unique] raises (the ValueError
    of [max] on an empty list) exactly when every corpus word has letter
    sum 0 or the greatest letter sum of the corpus; as soon as one word
    has a sum strictly between, a chain is returned. *)
Theorem find_longest_unique_raises_iff (lines : list string) :
  find_longest_unique (build lines) = Py.Raise Py.ValueError <->
  Forall (fun w => LetterSum.calculate w = 0 \/
                   LetterSum.calculate w = MAXSUM (build lines)) lines.
Proof. apply find_longest_unique_raises_iff_aux. Qed.

Lemma chain_length_by_len (l : list string) (b M : Z) :
  StronglySorted chain_rel l ->
  Forall (fun w => b < Py.len w <= M) l ->
  b <= M -> list_len l <= M - b.
Proof.
  unfold list_len. intros Hs. revert M.
  induction Hs as [|x l Hl IH Hx]; intros M Hall HbM; [simpl; lia|].
  apply Forall_cons in Hall as [Hx' Hall].
  assert (Forall (fun w => b < Py.len w <= Py.len x - 1) l) as Hall'.
  { rewrite Forall_forall in Hall, Hx |- *. intros w Hw.
    destruct (Hx w Hw) as [? _]. specialize (Hall w Hw). simpl in *. lia. }
  specialize (IH _ Hall'). simpl length. lia.
Qed.

Lemma chain_length_by_sum (l : list string) (a M : Z) :
  StronglySorted chain_rel l ->
  Forall (fun w => a <= LetterSum.calculate w < M) l ->
  a <= M -> list_len l <= M - a.
Proof.
  unfold list_len. intros Hs. revert a.
  induction Hs as [|x l Hl IH Hx]; intros a Hall HaM; [simpl; lia|].
  apply Forall_cons in Hall as [Hx' Hall].
  assert (Forall (fun w => LetterSum.calculate x + 1
                           <= LetterSum.calculate w < M) l) as Hall'.
  { rewrite Forall_forall in Hall, Hx |- *. intros w Hw.
    destruct (Hx w Hw) as [_ ?]. specialize (Hall w Hw). simpl in *. lia. }
  specialize (IH _ Hall'). simpl length. lia.
Qed.

(** X19: a chain returned by [find_longest_unique] on a built corpus is
    not empty; each of its words is the very word the index holds under
    the word's own (length, sum) key, is not empty, and has a letter sum
    from 1 to [MAXSUM - 1]; and the chain has at most [MAXLEN] and at most
    [MAXSUM - 1] words. *)
Theorem find_longest_unique_bounds (lines chain : list string) :
  find_longest_unique (build lines) = Py.Ok chain ->
  chain <> [] /\
  Forall (fun w =>
            words_length_and_sum (build lines)
              !! (Py.len w, LetterSum.calculate w) = Some w /\
            1 <= Py.len w <= MAXLEN (build lines) /\
            1 <= LetterSum.calculate w < MAXSUM (build lines)) chain /\
  list_len chain <= MAXLEN (build lines) /\
  list_len chain <= MAXSUM (build lines) - 1.
Proof.
  intros H. pose proof (consistent_build lines) as [Hidx _].
  pose proof (find_longest_unique_inv (build lines)
                (snd <$> map_to_list (words_length_and_sum (build lines)))
                Hidx) as Hinv.
  rewrite H in Hinv. destruct Hinv as (Hne & Hs & Hall).
  { intros l s w Hw. apply list_elem_of_fmap. exists ((l, s), w).
    split; [done|]. by apply elem_of_map_to_list. }
  assert (Forall (fun w =>
            words_length_and_sum (build lines)
              !! (Py.len w, LetterSum.calculate w) = Some w /\
            1 <= Py.len w <= MAXLEN (build lines) /\
            1 <= LetterSum.calculate w < MAXSUM (build lines)) chain)
    as Hall'.
  { eapply Forall_impl; [exact Hall|]. simpl. intros w (Hw & Hlen & Hsum).
    apply list_elem_of_fmap in Hw as ([[l s] w'] & -> & Hw).
    apply elem_of_map_to_list in Hw. simpl in *.
    destruct (Hidx _ _ _ Hw) as [Hl' Hs']. rewrite Hl', Hs'.
    split; [done|].
    apply build_index_corpus, build_len_le_MAXLEN in Hw. lia. }
  split; [done|]. split; [done|].
  assert (0 <= MAXLEN (build lines) /\ 1 <= MAXSUM (build lines)) as [? ?].
  { destruct chain as [|w chain]; [done|].
    apply Forall_cons in Hall' as [(_ & ? & ?) _]. lia. }
  split.
  - replace (MAXLEN (build lines)) with (MAXLEN (build lines) - 0) by lia.
    apply chain_length_by_len; [done| |lia].
    eapply Forall_impl; [exact Hall'|]. simpl. intros w (_ & ? & _). lia.
  - apply chain_length_by_sum; [done| |lia].
    eapply Forall_impl; [exact Hall'|]. simpl. by intros w (_ & _ & ?).
Qed.

Lemma find_longest_unique_bounds_witness :
  let chain := ["geographically"; "eavesdropper"; "woodworker"] in
  chain <> [] /\
  Forall (fun w =>
            words_length_and_sum (build four_words)
              !! (Py.len w, LetterSum.calculate w) = Some w /\
            1 <= Py.len w <= MAXLEN (build four_words) /\
            1 <= LetterSum.calculate w < MAXSUM (build four_words)) chain /\
  list_len chain <= MAXLEN (build four_words) /\
  list_len chain <= MAXSUM (build four_words) - 1.
Proof. apply (find_longest_unique_bounds four_words). reflexivity. Defined.

(** ** How often a pair is found *)

Section occurrences_facts.
Context {A : Type} `{EqDecision A}.
Implicit Types (x : A) (l : list A).

Lemma occurrences_nil x : occurrences x [] = 0.
Proof. done. Qed.

Lemma occurrences_cons x y l :
  occurrences x (y :: l) =
    (if decide (y = x) then 1 else 0) + occurrences x l.
Proof.
  unfold occurrences, list_len. rewrite filter_cons.
  destruct (decide (y = x)); simpl length; lia.
Qed.

Lemma occurrences_app x l1 l2 :
  occurrences x (l1 ++ l2) = occurrences x l1 + occurrences x l2.
Proof.
  unfold occurrences, list_len. rewrite filter_app, length_app. lia.
Qed.

Lemma occurrences_nonneg x l : 0 <= occurrences x l.
Proof. unfold occurrences, list_len. lia. Qed.

Lemma occurrences_not_elem x l : x ∉ l -> occurrences x l = 0.
Proof.
  induction l as [|y l IH]; intros Hx; [done|].
  rewrite occurrences_cons, IH by set_solver.
  rewrite decide_False; [done|]. set_solver.
Qed.

Lemma occurrences_filter (P : A -> Prop) `{forall y, Decision (P y)} x l :
  occurrences x (filter P l) =
    if decide (P x) then occurrences x l else 0.
Proof.
  induction l as [|y l IH].
  - by destruct (decide (P x)).
  - rewrite filter_cons, occurrences_cons.
    destruct (decide (P y)) as [Hy|Hy].
    + rewrite occurrences_cons, IH. destruct (decide (P x)); [done|].
      rewrite decide_False; [done|congruence].
    + rewrite IH. destruct (decide (P x)); [|done].
      rewrite decide_False; [done|congruence].
Qed.
End occurrences_facts.

Lemma occurrences_row (a b w : string) (tw : list string) :
  occurrences (a, b) (List.map (fun w2 => (w, w2)) tw) =
    if decide (w = a) then occurrences b tw else 0.
Proof.
  induction tw as [|x tw IH]; simpl; [by destruct (decide (w = a))|].
  rewrite occurrences_cons, IH.
  destruct (decide (w = a)) as [->|Hw].
  - rewrite occurrences_cons. destruct (decide (x = b)) as [->|Hx].
    + by rewrite decide_True.
    + rewrite decide_False; [done|congruence].
  - rewrite decide_False; [done|congruence].
Qed.

Lemma occurrences_cross (a b : string) (ws tw : list string) :
  occurrences (a, b)
    (flat_map (fun w1 => List.map (fun w2 => (w1, w2)) tw) ws) =
  occurrences a ws * occurrences b tw.
Proof.
  induction ws as [|w ws IH]; simpl; [done|].
  rewrite occurrences_app, IH, occurrences_cons, occurrences_row.
  destruct (decide (w = a)); lia.
Qed.

(** Over a dict with distinct keys, when only the item of key [k0] can
    contribute [c] occurrences, the total is [c] if that key is present. *)
Lemma occurrences_flat_map_key {B V : Type} `{EqDecision B}
    (g : Z * V -> list B) (d : list (Z * V)) (k0 c : Z) (p : B) :
  odict.wf d ->
  (forall k v, (k, v) ∈ d ->
     occurrences p (g (k, v)) = if decide (k = k0) then c else 0) ->
  occurrences p (flat_map g d) =
    if decide (k0 ∈ List.map fst d) then c else 0.
Proof.
  unfold odict.wf.
  induction d as [|[k v] d IH]; cbn [flat_map List.map fst];
    intros Hwf Hg.
  - destruct (decide (k0 ∈ [])) as [Hin|]; [by apply elem_of_nil in Hin|done].
  - apply NoDup_cons in Hwf as [Hk Hwf].
    rewrite occurrences_app, (Hg k v) by left.
    rewrite IH; [|done|intros k' v' Hin; apply Hg; by right].
    destruct (decide (k = k0)) as [->|Hne].
    + rewrite (decide_True (P := k0 ∈ k0 :: List.map fst d)) by left.
      rewrite (decide_False (P := k0 ∈ List.map fst d)) by done. lia.
    + destruct (decide (k0 ∈ List.map fst d)) as [Hin|Hin].
      * rewrite (decide_True (P := k0 ∈ k :: List.map fst d));
          [done|by right].
      * rewrite (decide_False (P := k0 ∈ k :: List.map fst d)); [done|].
        intros Hc. apply elem_of_cons in Hc as [->|Hc]; done.
Qed.

Lemma get_is_Some_keys {V : Type} (k : Z) (d : list (Z * V)) :
  is_Some (odict.get k d) -> k ∈ List.map fst d.
Proof.
  intros [v Hv]. apply get_Some_elem in Hv.
  apply list_elem_of_In, in_map_iff. exists (k, v).
  split; [done|by apply list_elem_of_In].
Qed.

Lemma occurrences_bucket (length_diff : Z) (item : Z * list string)
    (w1 w2 : string) :
  occurrences (w1, w2) (length_diff_pairs_of_bucket length_diff item) =
    if decide (Py.len w2 - Py.len w1 = length_diff)
    then occurrences w1 (snd item) * occurrences w2 (snd item) else 0.
Proof.
  unfold length_diff_pairs_of_bucket.
  destruct (group_by_length_grouped (snd item)) as (Hwf & Hgrp & Hall).
  set (words := snd item) in *. set (d := group_by_length words) in *.
  set (c := if decide (Py.len w2 - Py.len w1 = length_diff)
            then occurrences w1 words * occurrences w2 words else 0).
  rewrite (occurrences_flat_map_key _ d (Py.len w1) c); [|done|].
  - destruct (decide (Py.len w1 ∈ List.map fst d)) as [|Hk]; [done|].
    assert (occurrences w1 words = 0) as Hz.
    { apply occurrences_not_elem. intros Hw. apply Hk.
      by apply get_is_Some_keys, Hall. }
    unfold c. rewrite Hz. by destruct (decide _).
  - intros L ws Hin. destruct (Hgrp _ _ Hin) as [-> _].
    unfold pairs_of_group.
    destruct (odict.get (L + length_diff) d) as [tw|] eqn:Hg.
    + apply get_Some_elem, Hgrp in Hg as [-> _].
      rewrite occurrences_cross, !occurrences_filter. unfold c.
      destruct (decide (L = Py.len w1)) as [->|HL].
      * rewrite decide_True by done.
        destruct (decide (Py.len w2 = Py.len w1 + length_diff)).
        -- by rewrite decide_True by lia.
        -- rewrite decide_False by lia. lia.
      * rewrite decide_False by done. lia.
    + rewrite occurrences_nil.
      destruct (decide (L = Py.len w1)) as [->|HL]; [|done].
      unfold c. destruct (decide _) as [Hlen|]; [|done].
      rewrite (occurrences_not_elem w2 words); [lia|].
      intros Hw. apply Hall in Hw as [tw Htw].
      replace (Py.len w2) with (Py.len w1 + length_diff) in Htw by lia.
      congruence.
Qed.

(** X21: on a built corpus the pair [(w1, w2)] is found by
    [_find_length_diff_pairs] as many times as the product of the numbers
    of occurrences of [w1] and of [w2] in the corpus when the two words
    have equal letter sums and [len(w2) - len(w1)] is the requested
    difference, and never otherwise: the full cross product, repeated
    lines included. *)
Theorem build_length_diff_pairs_count (lines : list string)
    (length_diff : Z) (w1 w2 : string) :
  occurrences (w1, w2)
    (word_pairs_length_diff
       (_find_length_diff_pairs (build lines) length_diff)) =
  if decide (LetterSum.calculate w1 = LetterSum.calculate w2 /\
             Py.len w2 - Py.len w1 = length_diff)
  then occurrences w1 lines * occurrences w2 lines else 0.
Proof.
  pose proof (build_grouped lines) as (Hwf & Hgrp & Hall). simpl.
  unfold build at 1. rewrite (proj1 (pairs_process_lines _ _)). simpl.
  set (c := if decide (LetterSum.calculate w1 = LetterSum.calculate w2 /\
                       Py.len w2 - Py.len w1 = length_diff)
            then occurrences w1 lines * occurrences w2 lines else 0).
  rewrite (occurrences_flat_map_key _ _ (LetterSum.calculate w1) c);
    [|done|].
  - destruct (decide (_ ∈ _)) as [|Hk]; [done|].
    assert (occurrences w1 lines = 0) as Hz.
    { apply occurrences_not_elem. intros Hw. apply Hk.
      by apply get_is_Some_keys, Hall. }
    unfold c. rewrite Hz. by destruct (decide _).
  - intros key words Hin. destruct (Hgrp _ _ Hin) as [-> _].
    rewrite occurrences_bucket. simpl. rewrite !occurrences_filter.
    unfold c.
    destruct (decide (key = LetterSum.calculate w1)) as [->|Hk].
    + rewrite (decide_True (P := LetterSum.calculate w1
                                 = LetterSum.calculate w1)) by done.
      destruct (decide (Py.len w2 - Py.len w1 = length_diff)) as [Hl|Hl].
      * destruct (decide (LetterSum.calculate w2 = LetterSum.calculate w1)).
        -- by rewrite decide_True by done.
        -- rewrite decide_False; [lia|]. intros [? _]. congruence.
      * rewrite decide_False; [done|]. by intros [_ ?].
    + rewrite (decide_False (P := LetterSum.calculate w1 = key))
        by congruence.
      destruct (decide (Py.len w2 - Py.len w1 = length_diff)); lia.
Qed.

(** ** The report and the whole run *)

Section report_facts.
Variable repr_pair : string * string -> string.

Lemma analyze_word_pais_Ok (self : t) (length_diff : Z) :
  exists self',
    analyze_word_pais self length_diff = Py.Ok self' /\
    most_common_words self' = most_common_words self /\
    stdout self' = stdout self /\
    find_longest_unique self' = find_longest_unique self.
Proof.
  unfold analyze_word_pais, _find_no_common_pairs.
  rewrite (for_each_collect (bucket_pairs 188));
    [|intros item acc _; apply no_common_pairs_of_bucket_ok].
  eexists. split; [reflexivity|]. repeat split. simpl.
  by apply find_longest_unique_ext.
Qed.

Lemma find_longest_unique_Ok_or_ValueError (lines : list string) :
  (exists chain, find_longest_unique (build lines) = Py.Ok chain) \/
  find_longest_unique (build lines) = Py.Raise Py.ValueError.
Proof.
  pose proof (find_longest_unique_inv (build lines) lines
                (proj1 (consistent_build lines))
                (build_index_corpus lines)) as Hinv.
  destruct (find_longest_unique (build lines)) as [chain|e]; [eauto|].
  right. by rewrite Hinv.
Qed.

Lemma most_common_words_nil_iff (lines : list string) :
  most_common_words (build lines) = [] <-> lines = [].
Proof.
  split; [|by intros ->]. intros Hnil.
  destruct lines as [|w lines]; [done|].
  destruct (build_grouped (w :: lines)) as (_ & _ & Hall).
  destruct (Hall w) as [ws Hws]; [left|]. by rewrite Hnil in Hws.
Qed.

(** X22: the whole run, on the lines of the word list: it first prints
    the six self-test sums, then the words of letter sum 319 in file
    order.  It ends with a ValueError exactly when every word has letter
    sum 0 or the greatest letter sum of the list (an empty list included),
    and without exception otherwise; nothing more is printed before the
    exception when the list is empty. *)
Theorem main_outcome (file : list string) :
  let words := List.map Py.strip_lf file in
  (exists rest,
     fst (main repr_pair file) =
       ["0"; "1"; "26"; "6"; "100"; "317"] ++
       List.filter (fun w => LetterSum.calculate w =? 319) words ++ rest /\
     (rest = [] \/ words <> [])) /\
  (snd (main repr_pair file) = None \/
   snd (main repr_pair file) = Some Py.ValueError) /\
  (snd (main repr_pair file) = Some Py.ValueError <->
   Forall (fun w => LetterSum.calculate w = 0 \/
                    LetterSum.calculate w = MAXSUM (build words)) words).
Proof.
  intros words. unfold main, process_file. fold words.
  change (process_lines (init "enable1.txt") words) with (build words).
  destruct (analyze_word_pais_Ok (build words) 11)
    as (a & -> & Hmcw & Hout & Hflu).
  assert (stdout (build words)
          = List.filter (fun w => LetterSum.calculate w =? 319) words)
    as Hstd by (unfold build; by rewrite stdout_process_lines_aux).
  pose proof (find_longest_unique_raises_iff_aux words) as Hiff.
  unfold print_results, _find_most_common_word_sum.
  rewrite Hmcw, Hflu, Hout, Hstd.
  pose proof (py_max_spec (fun x => list_len (snd x))
                (most_common_words (build words))) as Hmax.
  destruct (py_max _ (most_common_words (build words)))
    as [[key ws]|e].
  - assert (words <> []) as Hne.
    { intros Hnil. destruct Hmax as (b & af & Heq & _).
      apply most_common_words_nil_iff in Hnil. rewrite Hnil in Heq.
      by destruct b. }
    destruct (find_longest_unique_Ok_or_ValueError words)
      as [[chain Hc]|Hr].
    + rewrite Hc. simpl. split; [eexists; split; [reflexivity|by right]|].
      split; [by left|]. rewrite <- Hiff, Hc. split; done.
    + rewrite Hr. simpl. split; [eexists; split; [reflexivity|by right]|].
      split; [by right|]. by rewrite <- Hiff.
  - destruct Hmax as [-> Hnil]. apply most_common_words_nil_iff in Hnil.
    simpl. split; [exists []; split; [by rewrite app_nil_r|by left]|].
    split; [by right|]. rewrite Hnil. split; [constructor|done].
Qed.
End report_facts.

(** The report on the four words, the pairs not being searched. *)
Example report_four_words :
  print_results (fun _ => "") (build four_words) =
    (["2 words have an odd letter sum";
      "139 is the most common letter sum, and 1 words have it";
      "Pair of words with the same letter sum whose lengths differ by 11 letters";
      "Pair of words with the same letter sum with no letters in common";
      "Longest valid list found: 3 words";
      "Word Length | Letter Sum | Word";
      "------------------------------";
      "         14 |        139 | geographically";
      "         12 |        144 | eavesdropper";
      "         10 |        147 | woodworker";
      "------------------------------";
      "Longest list of words with unique lengths and letter sums"],
     None).
Proof. vm_compute. reflexivity. Qed.

(** ** The letter sum over all of Unicode *)

Section unicode_facts.
Variable db : Unicode.database.

(** Mapping each code point to a list, whatever the index. *)
Lemma concat_imap_fixed (f : nat -> Z -> list Z) (t : list Z) :
  (forall i c, c ∈ t -> f i c = [c]) -> concat (imap f t) = t.
Proof.
  revert f. induction t as [|c t IH]; intros f Hf; [done|].
  rewrite imap_cons. simpl. rewrite Hf by left. simpl. f_equal.
  apply IH. intros i c' Hc'. apply Hf. by right.
Qed.

Lemma concat_imap_Forall (P : Z -> Prop) (f : nat -> Z -> list Z)
    (s : list Z) :
  (forall i c, Forall P (f i c)) -> Forall P (concat (imap f s)).
Proof.
  revert f. induction s as [|c s IH]; intros f Hf; [constructor|].
  rewrite imap_cons. simpl. apply Forall_app. split; [apply Hf|].
  apply IH. intros i c'. apply Hf.
Qed.

Lemma concat_imap_map (g : Z -> Z) (P : Z -> Prop)
    (f : nat -> Z -> list Z) (s : list Z) :
  (forall i c, P c -> f i c = [g c]) -> Forall P s ->
  concat (imap f s) = List.map g s.
Proof.
  revert f. induction s as [|c s IH]; intros f Hf Hs; [done|].
  apply Forall_cons in Hs as [Hc Hs].
  rewrite imap_cons. simpl. rewrite Hf by done. simpl. f_equal.
  apply IH; [|done]. intros i c'. apply Hf.
Qed.

(** A lowered string has no capital sigma left and consists of code
    points that are their own lowercase. *)
Lemma lower_stable (s : list Z) :
  Unicode.lowercase_stable db -> Unicode.sigma_stable db ->
  Forall (fun c => c <> Unicode.CAPITAL_SIGMA /\
                   Unicode.to_lower_full db c = [c]) (Unicode.lower db s).
Proof.
  intros Hst [Hfin Hsmall]. apply concat_imap_Forall. intros i c.
  unfold Unicode.lower_at.
  destruct (Z.eqb_spec c Unicode.CAPITAL_SIGMA) as [->|Hne].
  - apply Forall_singleton.
    destruct (Unicode.final_sigma db s i); (split; [done|done]).
  - apply Forall_forall. intros c' Hc'. by apply (Hst c).
Qed.

(** [str.lower] is idempotent. *)
Lemma lower_idempotent (s : list Z) :
  Unicode.lowercase_stable db -> Unicode.sigma_stable db ->
  Unicode.lower db (Unicode.lower db s) = Unicode.lower db s.
Proof.
  intros Hst Hsig. pose proof (lower_stable s Hst Hsig) as Hall.
  unfold Unicode.lower at 1. apply concat_imap_fixed.
  intros i c Hc. rewrite Forall_forall in Hall.
  destruct (Hall c Hc) as [Hne Hfix]. unfold Unicode.lower_at.
  by destruct (Z.eqb_spec c Unicode.CAPITAL_SIGMA).
Qed.

(** C9: for every string of code points, the letter sum of the string and
    of its lowercase are the same: [calculate(s) = calculate(s.lower())].
    [calculate] lowers its argument first, and lowering a lowered string
    changes nothing, the context-dependent sigma and the mappings to
    several code points included. *)
Theorem calculate_lower_unicode (s : list Z) :
  Unicode.lowercase_stable db -> Unicode.sigma_stable db ->
  Unicode.calculate db s = Unicode.calculate db (Unicode.lower db s).
Proof.
  intros Hst Hsig. unfold Unicode.calculate.
  by rewrite (lower_idempotent s Hst Hsig).
Qed.

(** On strings within U+0000..U+00FF [str.lower] is the character map of
    the 8-bit model. *)
Lemma lower_latin1 (s : list Z) :
  Unicode.agrees_on_latin1 db -> Forall Unicode.latin1 s ->
  Unicode.lower db s =
    List.map (fun c => Py.ord (Py.lower_char (Py.chr c))) s.
Proof.
  intros Hag Hs. unfold Unicode.lower.
  apply (concat_imap_map _ Unicode.latin1); [|done].
  intros i c Hc. unfold Unicode.lower_at.
  destruct (Z.eqb_spec c Unicode.CAPITAL_SIGMA) as [->|_].
  - unfold Unicode.latin1, Unicode.CAPITAL_SIGMA in Hc. lia.
  - by destruct (Hag c Hc).
Qed.
End unicode_facts.

Lemma ord_latin1 (a : ascii) : Unicode.latin1 (Py.ord a).
Proof.
  unfold Unicode.latin1, Py.ord. pose proof (N_ascii_bounded a). lia.
Qed.

Lemma chr_ord (a : ascii) : Py.chr (Py.ord a) = a.
Proof.
  unfold Py.chr, Py.ord. rewrite N2Z.id. apply ascii_N_embedding.
Qed.

Lemma chars_to_string (s : list Z) :
  Py.chars (Unicode.to_string s) = List.map Py.chr s.
Proof. apply list_ascii_of_string_of_list_ascii. Qed.

(** The 8-bit model is the restriction of the model over all code points
    to the strings within U+0000..U+00FF. *)
Lemma calculate_to_string (db : Unicode.database) (s : list Z) :
  Unicode.agrees_on_latin1 db -> Forall Unicode.latin1 s ->
  Unicode.calculate db s = LetterSum.calculate (Unicode.to_string s).
Proof.
  intros Hag Hs. unfold Unicode.calculate, LetterSum.calculate.
  rewrite (lower_latin1 db s Hag Hs), chars_lower, chars_to_string.
  f_equal. clear Hs. induction s as [|c s IH]; [done|].
  cbn [List.map List.filter].
  destruct (Hag _ (ord_latin1 (Py.lower_char (Py.chr c)))) as [-> _].
  rewrite chr_ord.
  destruct (Py.isalpha (Py.lower_char (Py.chr c))); simpl; by rewrite IH.
Qed.

Lemma latin1_db_lowercase_stable : Unicode.lowercase_stable Unicode.latin1_db.
Proof.
  intros c c' Hsigma Hc'. simpl in Hc'.
  apply list_elem_of_singleton in Hc'.
  destruct ((0 <=? c) && (c <? 256)) eqn:Hr.
  - subst c'. pose proof (ord_latin1 (Py.lower_char (Py.chr c))) as Hl.
    unfold Unicode.latin1 in Hl.
    split; [unfold Unicode.CAPITAL_SIGMA; lia|]. simpl.
    replace ((0 <=? Py.ord (Py.lower_char (Py.chr c))) &&
             (Py.ord (Py.lower_char (Py.chr c)) <? 256)) with true
      by (symmetry; apply andb_true_intro; split;
          [apply Z.leb_le|apply Z.ltb_lt]; lia).
    by rewrite chr_ord, lower_char_idem.
  - subst c'. split; [done|]. simpl. by rewrite Hr.
Qed.

Lemma latin1_db_sigma_stable : Unicode.sigma_stable Unicode.latin1_db.
Proof. split; reflexivity. Qed.

Lemma latin1_db_agrees : Unicode.agrees_on_latin1 Unicode.latin1_db.
Proof.
  intros c Hc. unfold Unicode.latin1 in Hc. simpl.
  replace ((0 <=? c) && (c <? 256)) with true
    by (symmetry; apply andb_true_intro; split;
        [apply Z.leb_le|apply Z.ltb_lt]; lia).
  done.
Qed.

Lemma sample_db_lowercase_stable : Unicode.lowercase_stable Unicode.sample_db.
Proof.
  intros c c' Hsigma Hc'. simpl in Hc'.
  destruct (Z.eqb_spec c 913) as [->|H913].
  { apply list_elem_of_singleton in Hc' as ->. by split. }
  destruct (Z.eqb_spec c 304) as [->|H304].
  { apply elem_of_cons in Hc' as [->|Hc']; [by split|].
    apply list_elem_of_singleton in Hc' as ->. by split. }
  destruct (latin1_db_lowercase_stable c c' Hsigma Hc') as [Hne Hfix].
  split; [done|]. simpl in Hfix |- *.
  assert (c' <> 913 /\ c' <> 304) as [H1 H2].
  { apply list_elem_of_singleton in Hc'.
    destruct ((0 <=? c) && (c <? 256)); [|by subst c'].
    pose proof (ord_latin1 (Py.lower_char (Py.chr c))) as Hl.
    unfold Unicode.latin1 in Hl. lia. }
  destruct (Z.eqb_spec c' 913); [done|].
  by destruct (Z.eqb_spec c' 304).
Qed.

Lemma sample_db_sigma_stable : Unicode.sigma_stable Unicode.sample_db.
Proof. split; reflexivity. Qed.

(** Capital alpha, capital sigma and dotted capital I, in the database
    fragment. *)
Lemma calculate_lower_unicode_witness :
  Unicode.calculate Unicode.sample_db [913; 931; 304] =
  Unicode.calculate Unicode.sample_db
    (Unicode.lower Unicode.sample_db [913; 931; 304]).
Proof.
  apply calculate_lower_unicode;
    [apply sample_db_lowercase_stable|apply sample_db_sigma_stable].
Defined.


(** C4: the one-character string U+00E9 (e with acute accent) has letter
    sum 137, not 0: the character is no ASCII letter, but [str.isalpha]
    accepts it and [ord - 96] is added, a value that is no position in
    the alphabet a = 1 .. z = 26. *)
Theorem e_acute_adds_137 :
  Py.is_ascii_letter (Py.chr 233) = false /\
  Py.isalpha (Py.chr 233) = true /\
  Py.lower_char (Py.chr 233) = Py.chr 233 /\
  LetterSum.calculate (String (Py.chr 233) "") = 137 /\
  LetterSum.calculate "" = 0.
Proof. repeat split; reflexivity. Qed.

(** ** Strings within U+0000..U+00FF, for any character database *)

Lemma to_string_app (s1 s2 : list Z) :
  Unicode.to_string (s1 ++ s2) =
    String.append (Unicode.to_string s1) (Unicode.to_string s2).
Proof.
  unfold Unicode.to_string. induction s1 as [|c s1 IH]; simpl; [done|].
  by rewrite IH.
Qed.

(** X1: for two strings within U+0000..U+00FF, where [str.lower] is a
    character map, the letter sum of their concatenation is the sum of
    their letter sums. *)
Theorem calculate_append_latin1 (db : Unicode.database) (s1 s2 : list Z) :
  Unicode.agrees_on_latin1 db ->
  Forall Unicode.latin1 s1 -> Forall Unicode.latin1 s2 ->
  Unicode.calculate db (s1 ++ s2) =
    Unicode.calculate db s1 + Unicode.calculate db s2.
Proof.
  intros Hag H1 H2.
  rewrite !(calculate_to_string db) by (try apply Forall_app; done).
  rewrite to_string_app. apply calculate_append.
Qed.

Lemma calculate_append_latin1_witness :
  Unicode.calculate Unicode.latin1_db ([99; 97] ++ [98]) =
    Unicode.calculate Unicode.latin1_db [99; 97] +
    Unicode.calculate Unicode.latin1_db [98].
Proof.
  apply calculate_append_latin1; [apply latin1_db_agrees| |];
    repeat constructor; unfold Unicode.latin1; lia.
Defined.

(** X2: two strings within U+0000..U+00FF made of the same characters in
    any order have the same letter sum. *)
Theorem calculate_anagram_latin1 (db : Unicode.database) (s1 s2 : list Z) :
  Unicode.agrees_on_latin1 db ->
  Forall Unicode.latin1 s1 -> s1 ≡ₚ s2 ->
  Unicode.calculate db s1 = Unicode.calculate db s2.
Proof.
  intros Hag H1 Hp.
  assert (Forall Unicode.latin1 s2) as H2 by (by rewrite <- Hp).
  rewrite !(calculate_to_string db) by done.
  apply calculate_anagram. rewrite !chars_to_string.
  change List.map with (@fmap list _). by rewrite Hp.
Qed.

Lemma calculate_anagram_latin1_witness :
  Unicode.calculate Unicode.latin1_db [99; 97; 98] =
  Unicode.calculate Unicode.latin1_db [97; 99; 98].
Proof.
  apply calculate_anagram_latin1;
    [apply latin1_db_agrees
    |repeat constructor; unfold Unicode.latin1; lia
    |apply perm_swap].
Defined.

(** X3: the letter sum of a string within U+0000..U+00FF is never
    negative, and it is 0 exactly when [str.isalpha] accepts none of its
    characters. *)
Theorem calculate_zero_iff_latin1 (db : Unicode.database) (s : list Z) :
  Unicode.agrees_on_latin1 db -> Forall Unicode.latin1 s ->
  0 <= Unicode.calculate db s /\
  (Unicode.calculate db s = 0 <->
   Forall (fun c => Unicode.isalpha db c = false) s).
Proof.
  intros Hag Hs. rewrite (calculate_to_string db) by done.
  destruct (calculate_zero_iff (Unicode.to_string s)) as [Hge Hiff].
  split; [done|]. rewrite Hiff, chars_to_string. clear Hge Hiff.
  induction Hs as [|c s Hc Hs IH]; [done|].
  cbn [List.map]. rewrite !Forall_cons, IH.
  by destruct (Hag c Hc) as [-> _].
Qed.

Lemma calculate_zero_iff_latin1_witness :
  0 <= Unicode.calculate Unicode.latin1_db [49; 50] /\
  (Unicode.calculate Unicode.latin1_db [49; 50] = 0 <->
   Forall (fun c => Unicode.isalpha Unicode.latin1_db c = false) [49; 50]).
Proof.
  apply calculate_zero_iff_latin1; [apply latin1_db_agrees|].
  repeat constructor; unfold Unicode.latin1; lia.
Defined.

(** Beyond U+0000..U+00FF the letter sum is no sum of character values:
    capital alpha then capital sigma gives 849 + 866, the sigma being
    final, while the two one-letter strings give 849 and 867; and the
    dotted capital I gives 9, the value of the [i] of its two-character
    lowercase. *)
Example sigma_and_dotted_I :
  Unicode.lower Unicode.sample_db [913; 931] = [945; 962] /\
  Unicode.calculate Unicode.sample_db [913; 931] = 1715 /\
  Unicode.calculate Unicode.sample_db [913] +
    Unicode.calculate Unicode.sample_db [931] = 1716 /\
  Unicode.calculate Unicode.sample_db [931; 913] = 1716 /\
  Unicode.lower Unicode.sample_db [304] = [105; 775] /\
  Unicode.calculate Unicode.sample_db [304] = 9.
Proof. repeat split; reflexivity. Qed.
